(** * drug-safety-app: a shallow embedding of [app.py]

    The program looks a drug up in a formulary service, normalises the
    returned items and cross-references the interaction text of every item
    with the medications a user has registered.

    Python values are modelled as follows.
    - A [str] is the list of its Unicode code points ([pystr]); literals are
      written [u "..."] and decoded from UTF-8.
    - The case mappings of [str] ([lower], [upper], [capitalize]) and the
      encoder of the standard output belong to the Python the program runs
      on ([Python]); what is known of them is what they do on the code points
      the program's own texts are written in.
    - A [dict] is a [gmap], a [set] a [gset]; the order in which Python walks
      a set is not fixed by the language and is an explicit argument.
    - A decoded JSON document is a [json] value.
    - An exception is a result [Exc e]; a computation that talks to the
      formulary service runs in the [io] monad, which logs the requests sent.

    The definitions come first, in the order of the source; the facts about
    them follow. *)

From Stdlib Require Import NArith ZArith List Ascii String Lia Bool.
From stdpp Require Import base option list gmap sets.

Set Warnings "-register-all,-clear-no-such-hyp".
Local Open Scope N_scope.


(** ** Python strings *)

Module Py.

(** A [str]: its code points, in order. *)
Definition pystr : Type := list N.

(** Decoding of the UTF-8 bytes of a literal: [need] continuation bytes are
    still missing for the code point accumulated in [acc]. *)
Fixpoint utf8_from (bs : list N) (need : nat) (acc : N) : pystr :=
  match bs with
  | [] => []
  | b :: t =>
      match need with
      | S k =>
          let acc' := acc * 64 + b mod 64 in
          match k with
          | O => acc' :: utf8_from t O 0
          | _ => utf8_from t k acc'
          end
      | O =>
          if b <? 128 then b :: utf8_from t O 0
          else if b <? 224 then utf8_from t 1%nat (b mod 32)
          else if b <? 240 then utf8_from t 2%nat (b mod 16)
          else utf8_from t 3%nat (b mod 8)
      end
  end.

(** The string written [s] in this file. *)
Definition u (s : string) : pystr :=
  utf8_from (map N_of_ascii (list_ascii_of_string s)) O 0.

(** [str.isspace] of one code point: the code points of Unicode that Python
    counts as whitespace. *)
Definition isspace (c : N) : bool :=
  ((9 <=? c) && (c <=? 13)) || ((28 <=? c) && (c <=? 32))
  || (c =? 133) || (c =? 160) || (c =? 5760)
  || ((8192 <=? c) && (c <=? 8202))
  || (c =? 8232) || (c =? 8233) || (c =? 8239) || (c =? 8287) || (c =? 12288).

(** The Hangul syllables, U+AC00 to U+D7A3. *)
Definition hangul (c : N) : bool := (44032 <=? c) && (c <=? 55203).

(** The plain alphabet: ASCII, the whitespace of Unicode, the Hangul
    syllables, and U+0130 with the combining dot U+0307 of its lower case.
    On a string of these code points the case mappings of Python work code
    point by code point, as the tables below say. Outside of it they are not
    described here: Python maps many more letters, and the lower case of a
    capital sigma depends on what stands around it. *)
Definition plain (c : N) : bool :=
  (c <? 128) || isspace c || hangul c || (c =? 304) || (c =? 775).

Definition plain_text (s : pystr) : bool := forallb plain s.

(** The case mappings on the plain alphabet: the ASCII letters change case,
    U+0130 has a lower case of two code points, every other code point is
    mapped to itself. *)
Definition table_lower_cp (c : N) : pystr :=
  if (65 <=? c) && (c <=? 90) then [c + 32]
  else if c =? 304 then [105; 775]
  else [c].

Definition table_upper_cp (c : N) : pystr :=
  if (97 <=? c) && (c <=? 122) then [c - 32] else [c].

Definition table_lower (s : pystr) : pystr := flat_map table_lower_cp s.
Definition table_upper (s : pystr) : pystr := flat_map table_upper_cp s.

(** The first code point in title case (on the plain alphabet, its upper
    case), the rest in lower case. *)
Definition table_capitalize (s : pystr) : pystr :=
  match s with
  | [] => []
  | c :: rest => table_upper_cp c ++ table_lower rest
  end.

(** [s.strip()]: whitespace removed at both ends. *)
Fixpoint lstrip (s : pystr) : pystr :=
  match s with
  | [] => []
  | c :: rest => if isspace c then lstrip rest else s
  end.

Definition rstrip (s : pystr) : pystr := rev (lstrip (rev s)).
Definition strip (s : pystr) : pystr := rstrip (lstrip s).

(** [s.startswith(p)]. *)
Fixpoint startswith (p s : pystr) : bool :=
  match p, s with
  | [], _ => true
  | _ :: _, [] => false
  | a :: p', b :: s' => (a =? b) && startswith p' s'
  end.

(** [sub in s]: [sub] occurs in [s] as a run of consecutive code points. *)
Fixpoint contains (sub s : pystr) : bool :=
  startswith sub s ||
  match s with
  | [] => false
  | _ :: t => contains sub t
  end.

(** [s.index(sub)]: the position of the first occurrence; [None] stands for
    the [ValueError] Python raises when there is none. *)
Fixpoint str_index (s sub : pystr) : option nat :=
  if startswith sub s then Some O
  else match s with
       | [] => None
       | _ :: t => S <$> str_index t sub
       end.

(** Slices [s[:i]], [s[i:j]] and [s[j:]] for indices that are not negative;
    as in Python, an index past the end is clamped. *)
Definition slice_to (i : nat) (s : pystr) : pystr := take i s.
Definition slice (i j : nat) (s : pystr) : pystr := take (j - i) (drop i s).
Definition slice_from (j : nat) (s : pystr) : pystr := drop j s.

(** [s.replace(old, new)]: the occurrences of [old] are found from left to
    right and do not overlap; [skip] counts the code points of the occurrence
    just replaced that are still to be dropped. *)
Fixpoint replace_from (old new : pystr) (skip : nat) (s : pystr) : pystr :=
  match s with
  | [] => []
  | c :: t =>
      match skip with
      | S k => replace_from old new k t
      | O =>
          if startswith old s
          then new ++ replace_from old new (length old - 1) t
          else c :: replace_from old new O t
      end
  end.

Definition replace (old new s : pystr) : pystr :=
  match old with
  | [] => new ++ flat_map (fun c => c :: new) s
  | _ => replace_from old new O s
  end.

(** [str(n)] for a number that is not negative, as an f-string prints
    [len(...)] and [i+1]: its decimal digits. *)
Fixpoint str_uint (d : Decimal.uint) : pystr :=
  match d with
  | Decimal.Nil => []
  | Decimal.D0 d => 48 :: str_uint d
  | Decimal.D1 d => 49 :: str_uint d
  | Decimal.D2 d => 50 :: str_uint d
  | Decimal.D3 d => 51 :: str_uint d
  | Decimal.D4 d => 52 :: str_uint d
  | Decimal.D5 d => 53 :: str_uint d
  | Decimal.D6 d => 54 :: str_uint d
  | Decimal.D7 d => 55 :: str_uint d
  | Decimal.D8 d => 56 :: str_uint d
  | Decimal.D9 d => 57 :: str_uint d
  end.

Definition str_int (n : nat) : pystr := str_uint (Nat.to_uint n).

End Py.

Import Py.

(** The Python the program runs on: the case mappings of [str] and the
    encoder of the standard output, with the facts about them that hold in
    CPython and that the development uses.
    - On a string of the plain alphabet, [lower], [upper] and [capitalize]
      are the tables.
    - [lower] and [capitalize] make no string empty that is not: every code
      point is mapped to at least one.
    - The standard output encodes ASCII and Hangul, in which the program
      writes its own messages. Whether it encodes another code point depends
      on its encoding; UTF-8 refuses the surrogates, which a JSON document
      can hold. *)
Class Python : Type := {
  lower : pystr -> pystr;
  upper : pystr -> pystr;
  capitalize : pystr -> pystr;
  stdout_encodes : N -> bool;
  lower_table : forall s, plain_text s = true -> lower s = table_lower s;
  upper_table : forall s, plain_text s = true -> upper s = table_upper s;
  capitalize_table : forall s, plain_text s = true -> capitalize s = table_capitalize s;
  lower_nil : forall s, lower s = [] -> s = [];
  capitalize_nil : forall s, capitalize s = [] -> s = [];
  stdout_plain : forall c, (c <? 128) || hangul c = true -> stdout_encodes c = true;
}.

(** ** Values and exceptions *)

(** A decoded JSON document. Of a number the program observes only whether
    it is zero and what [str] prints for it. *)
Inductive json : Type :=
| JNull
| JBool (b : bool)
| JNum (nonzero : bool) (text : pystr)
| JStr (s : pystr)
| JArr (l : list json)
| JObj (d : gmap pystr json).

(** The exceptions the modelled operations raise. *)
Inductive exn : Type :=
| ConnectionError
| HTTPError
| AttributeError
| TypeError
| KeyError
| IndexError
| UnicodeEncodeError.

(** The result of evaluating an expression: a value or a raised exception. *)
Inductive res (A : Type) : Type :=
| Ret (a : A)
| Exc (e : exn).

Arguments Ret {A} a.
Arguments Exc {A} e.

#[export] Instance res_ret : MRet res := fun A a => Ret a.

#[export] Instance res_bind : MBind res := fun A B f m =>
  match m with
  | Ret a => f a
  | Exc e => Exc e
  end.

(** [[f(x) for x in l]], stopping at the first exception. *)
Fixpoint res_map {A B : Type} (f : A -> res B) (l : list A) : res (list B) :=
  match l with
  | [] => Ret []
  | x :: t => y ← f x; ys ← res_map f t; Ret (y :: ys)
  end.

(** [print(text)]: the text is encoded for the standard output, and the call
    raises when the encoder refuses a code point of it. *)
Definition print `{Python} (text : pystr) : res unit :=
  if forallb stdout_encodes text then Ret tt else Exc UnicodeEncodeError.

(** The query parameters of one request. *)
Abbreviation params := (gmap pystr pystr).

(** What the transport gives back for a request: [requests.get] raises, or
    there is a response with a status code and a body that decodes as JSON
    ([Some]) or does not ([None]). *)
Inductive reply : Type :=
| Unreachable
| Response (status_code : Z) (body : option json).

(** The environment of the program: its Python, the credential read at
    start-up, the formulary service, and the library functions that are used
    as given. [urllib.parse.quote] encodes its argument as UTF-8 first and
    raises when that fails ([None]); [urllib.parse.unquote] does not raise. *)
Class World : Type := {
  python :: Python;
  SERVICE_KEY : option pystr;
  service : params -> reply;
  quote : pystr -> option pystr;
  unquote : pystr -> pystr;
  str_container : json -> pystr;
}.

(** A computation that may send requests: it extends the log of requests
    sent so far and ends in a value or an exception. *)
Definition io (A : Type) : Type := list params -> res A * list params.

#[export] Instance io_ret : MRet io := fun A a log => (Ret a, log).

#[export] Instance io_bind : MBind io := fun A B f m log =>
  match m log with
  | (Ret a, log') => f a log'
  | (Exc e, log') => (Exc e, log')
  end.

Definition lift {A : Type} (r : res A) : io A := fun log => (r, log).

(** [try: m  except Exception: h]. *)
Definition try_except {A : Type} (m : io A) (h : exn -> io A) : io A :=
  fun log =>
    match m log with
    | (Ret a, log') => (Ret a, log')
    | (Exc e, log') => h e log'
    end.

(** ** Operations of Python on decoded JSON *)

Section Values.
Context `{World}.

(** [str(v)]. *)
Definition py_str (v : json) : pystr :=
  match v with
  | JNull => u "None"
  | JBool true => u "True"
  | JBool false => u "False"
  | JNum _ text => text
  | JStr s => s
  | JArr _ | JObj _ => str_container v
  end.

(** [bool(v)]. *)
Definition truthy (v : json) : bool :=
  match v with
  | JNull => false
  | JBool b => b
  | JNum nonzero _ => nonzero
  | JStr s => bool_decide (s ≠ [])
  | JArr l => bool_decide (l ≠ [])
  | JObj d => bool_decide (d ≠ ∅)
  end.

(** [v.get(key, dflt)]: only a dict has the method. *)
Definition py_get (v : json) (key : pystr) (dflt : json) : res json :=
  match v with
  | JObj d => Ret (default dflt (d !! key))
  | _ => Exc AttributeError
  end.

(** [key in v]: a key of a dict, an element of a list, a part of a string;
    [None], a number or a truth value is not a container. *)
Definition py_has (key : pystr) (v : json) : res bool :=
  match v with
  | JObj d => Ret (bool_decide (is_Some (d !! key)))
  | JArr l => Ret (existsb (fun x => match x with
                                     | JStr s => bool_decide (s = key)
                                     | _ => false
                                     end) l)
  | JStr s => Ret (contains key s)
  | _ => Exc TypeError
  end.

(** [v[key]] for a string [key]: defined on a dict that has the key. *)
Definition py_getitem (v : json) (key : pystr) : res json :=
  match v with
  | JObj d => match d !! key with
              | Some x => Ret x
              | None => Exc KeyError
              end
  | _ => Exc TypeError
  end.

(** The values [for item in v] runs through: the elements of a list, the
    keys of a dict, the characters of a string. *)
Definition py_iter (v : json) : res (list json) :=
  match v with
  | JArr l => Ret l
  | JObj d => Ret (JStr <$> (map_to_list d).*1)
  | JStr s => Ret ((fun c => JStr [c]) <$> s)
  | _ => Exc TypeError
  end.

(** [v[0]]. *)
Definition py_first (v : json) : res json :=
  match v with
  | JArr (x :: _) => Ret x
  | JArr [] => Exc IndexError
  | JStr (c :: _) => Ret (JStr [c])
  | JStr [] => Exc IndexError
  | JObj _ => Exc KeyError
  | _ => Exc TypeError
  end.

End Values.

(** ** Constants of the program *)

(** The sentinel of a field without information (the specification calls it
    "no information") and the sentinel of an unknown ingredient ("ingredient
    unknown"). *)
Definition NO_INFO : pystr := u "정보 없음".
Definition UNKNOWN_INGREDIENT : pystr := u "성분 정보 없음".

(** [DRUG_INGREDIENT_MAP] (lines 15 to 25). *)
Definition DRUG_INGREDIENT_MAP : gmap pystr pystr :=
  list_to_map
    [ (u "타이레놀", u "아세트아미노펜");
      (u "게보린", u "이소프로필안티피린");
      (u "판콜에이", u "아세트아미노펜");
      (u "아스피린", u "아세틸살리실산");
      (u "이지엔6", u "이부프로펜");
      (u "부루펜", u "이부프로펜");
      (u "아세트아미노펜", u "아세트아미노펜");
      (u "이부프로펜", u "이부프로펜");
      (u "나프록센", u "나프록센") ].

(** ** Record normalisation *)

(** One normalised item. The fields are the entries of the dict the program
    builds: [effect] is the entry "효과", [dosage] "투약량", [precaution]
    "주의사항", [interaction] "병용금기", [ingredient_text] "성분",
    [item_name] "약품명"; [itemSeq] keeps its key. *)
Record drug_info : Type := {
  effect : pystr;
  dosage : pystr;
  precaution : pystr;
  interaction : pystr;
  ingredient_text : pystr;
  item_name : json;
  itemSeq : json;
}.

Section Normalizer.
Context `{World}.

(** [safe_extract] (app.py, lines 38 to 44). [item.get(key)] is [None] for a
    missing key and for a JSON null. *)
Definition safe_extract (item : gmap pystr json) (key : pystr) : pystr :=
  match item !! key with
  | None | Some JNull => NO_INFO
  | Some value =>
      if bool_decide (lower (py_str value) ∈ [u "none"; u "null"; []])
      then NO_INFO
      else strip (replace (u "</p>") [] (replace (u "<p>") [] (py_str value)))
  end.

(** [extract_drug_info] (lines 47 to 58). *)
Definition extract_drug_info (item : gmap pystr json) (search_term : pystr) : drug_info :=
  {| effect := safe_extract item (u "efcyQesitm");
     dosage := safe_extract item (u "useMethodQesitm");
     precaution := safe_extract item (u "atpnWarnQesitm");
     interaction := safe_extract item (u "intrcQesitm");
     ingredient_text := safe_extract item (u "mainItemIngr");
     item_name := default (JStr search_term) (item !! u "itemName");
     itemSeq := default JNull (item !! u "itemSeq") |}.

(** The call [extract_drug_info(item, search_term)] on a value that came out
    of a JSON document: [item.get] exists only when the value is a dict. *)
Definition call_extract_drug_info (item : json) (search_term : pystr) : res drug_info :=
  match item with
  | JObj d => Ret (extract_drug_info d search_term)
  | _ => Exc AttributeError
  end.

End Normalizer.

(** ** The formulary resolver *)

Section Resolver.
Context `{World}.

(** [requests.get(SEARCH_API_URL, params=params)]: the request is logged;
    the call raises when the transport fails. *)
Definition requests_get (p : params) : io (Z * option json) :=
  fun log =>
    (match service p with
     | Unreachable => Exc ConnectionError
     | Response status_code body => Ret (status_code, body)
     end, log ++ [p]).

(** [response.raise_for_status()]: the library raises for the client and
    server error statuses, 400 to 599, and for no other status. *)
Definition raise_for_status (status_code : Z) : res unit :=
  if ((400 <=? status_code) && (status_code <? 600))%Z then Exc HTTPError else Ret tt.

(** [code in ('00', '0')]. *)
Definition accepted_code (code : json) : bool :=
  match code with
  | JStr s => bool_decide (s = u "00") || bool_decide (s = u "0")
  | _ => false
  end.

(** [perform_search] (lines 61 to 89). Every exception raised in the body
    is caught by the outer handler, which returns [None]; a body that is not
    JSON is caught by the inner one, with the same result. The two handlers
    print a fixed text followed by text of the libraries (the start of the
    response text, which [requests] decodes with replacement characters, and
    the message of the exception caught); these two messages are taken to be
    printable and are left out. *)
Definition perform_search (p : params) (original_drug_name : pystr)
    (multiple_results : bool) : io (option (list drug_info)) :=
  try_except
    (response ← requests_get p;
     _ ← lift (raise_for_status response.1);
     match response.2 with
     | None => mret None
     | Some search_data =>
         header ← lift (py_get search_data (u "header") (JObj ∅));
         code ← lift (py_get header (u "resultCode") JNull);
         if negb (accepted_code code) then mret None else
         has_body ← lift (py_has (u "body") search_data);
         if negb has_body then mret None else
         body ← lift (py_getitem search_data (u "body"));
         has_items ← lift (py_has (u "items") body);
         if negb has_items then mret None else
         items ← lift (py_getitem body (u "items"));
         if negb (truthy items) then mret None else
         if multiple_results then
           elements ← lift (py_iter items);
           result_list ← lift (res_map (fun item => call_extract_drug_info item original_drug_name) elements);
           mret (Some result_list)
         else
           first ← lift (py_first items);
           info ← lift (call_extract_drug_info first original_drug_name);
           mret (Some [info])
     end)
    (fun _ => mret None).

(** [urllib.parse.quote(drug_name)] (line 98), outside of any [try]. *)
Definition urllib_parse_quote (drug_name : pystr) : res pystr :=
  match quote drug_name with
  | Some encoded_drug_name => Ret encoded_drug_name
  | None => Exc UnicodeEncodeError
  end.

(** The parameters of the two requests of a lookup (lines 101 to 103 and
    115 to 117). *)
Definition params_item_name (key encoded_drug_name : pystr) : params :=
  {[ u "serviceKey" := key; u "itemName" := encoded_drug_name;
     u "type" := u "json"; u "numOfRows" := u "3" ]}.

Definition params_ingr_name (key encoded_drug_name : pystr) : params :=
  {[ u "serviceKey" := key; u "ingrName" := encoded_drug_name;
     u "type" := u "json"; u "numOfRows" := u "3" ]}.

(** [if drug_info_list:] is taken for a list that is not empty. *)
Definition found (drug_info_list : option (list drug_info)) : bool :=
  match drug_info_list with
  | Some (_ :: _) => true
  | _ => false
  end.

(** The loop that prints the interaction text of every result (lines 108 to
    110 and 122 to 124); [i] is the index [enumerate] has reached. *)
Fixpoint print_results (i : nat) (drug_info_list : list drug_info) : res unit :=
  match drug_info_list with
  | [] => Ret tt
  | info :: rest =>
      _ ← print (u "--- 결과 " ++ str_int (i + 1) ++ u " ("
                 ++ py_str (item_name info) ++ u ")의 병용금기 정보 ---");
      _ ← print (u "정보: " ++ interaction info);
      print_results (S i) rest
  end.

(** The lines printed after a stage has found results (lines 106 to 111 and
    120 to 125); [stage] is "1" or "2" and [filter] the name of the filter.
    They are printed outside of any [try]. *)
Definition print_stage (stage filter : pystr) (drug_info_list : list drug_info) : res unit :=
  _ ← print (u "--- " ++ stage ++ u "단계 (" ++ filter ++ u ") 검색 성공: "
             ++ str_int (length drug_info_list) ++ u "개 결과 ---");
  _ ← print ([10] ++ u "=== [" ++ stage ++ u "단계] API 병용금기 정보 전문 디버깅 시작 ===");
  _ ← print_results 0 drug_info_list;
  print (u "=== API 병용금기 정보 디버깅 종료 ===" ++ [10]).

(** [search_drug_info] (lines 92 to 128). [not SERVICE_KEY] holds for a
    missing and for an empty credential. *)
Definition search_drug_info (drug_name : pystr) : io (option (list drug_info)) :=
  match SERVICE_KEY with
  | None | Some [] =>
      _ ← lift (print (u "오류: API 키(DRUG_API_KEY)가 .env 파일에서 로드되지 않았습니다."));
      mret None
  | Some key =>
      encoded_drug_name ← lift (urllib_parse_quote drug_name);
      drug_info_list ← perform_search (params_item_name key encoded_drug_name) drug_name true;
      if found drug_info_list then
        _ ← lift (print_stage (u "1") (u "itemName") (default [] drug_info_list));
        mret drug_info_list
      else
      drug_info_list ← perform_search (params_ingr_name key encoded_drug_name) drug_name true;
      if found drug_info_list then
        _ ← lift (print_stage (u "2") (u "ingrName") (default [] drug_info_list));
        mret drug_info_list
      else
      mret None
  end.

End Resolver.

(** ** The interaction matcher *)

(** One entry of the user's medication list, the dict
    [{"name": ..., "ingredient": ...}] that [add_drug] stores. Both entries
    are always there, so that [drug_item.get('name', '')] is the name and
    [drug_item.get('ingredient', '')] the ingredient. *)
Record drug_item : Type := {
  name : pystr;
  ingredient : pystr;
}.

(** One warning, the dict with the entries "searched_drug", "conflict_drug"
    and "info". *)
Record warning : Type := {
  searched_drug : json;
  conflict_drug : pystr;
  info : pystr;
}.

(** A list [order] is an order in which [for keyword in my_drug_keywords]
    may run through the set: every element once. *)
Definition iterates (keywords : gset pystr) (order : list pystr) : Prop :=
  order ≡ₚ elements keywords.

(** The text with the keyword emphasised (lines 172 to 183): the position is
    looked up in the lower-cased, stripped text and used on the original. *)
Definition highlight (contra_info_original contra_info_lower keyword : pystr) : pystr :=
  match str_index contra_info_lower keyword with
  | Some start_index =>
      let end_index := (start_index + length keyword)%nat in
      let original_keyword := slice start_index end_index contra_info_original in
      slice_to start_index contra_info_original
        ++ u "<b>" ++ original_keyword ++ u "</b>"
        ++ slice_from end_index contra_info_original
  | None => contra_info_original
  end.

(** The inner loop (lines 162 to 191): the first keyword, in the order of
    the iteration, that occurs in the text; the loop is left there. *)
Fixpoint first_keyword (order : list pystr) (contra_info_lower : pystr) : option pystr :=
  match order with
  | [] => None
  | keyword :: rest =>
      if contains keyword contra_info_lower then Some keyword
      else first_keyword rest contra_info_lower
  end.

Section Matcher.
Context `{Python}.

(** One turn of the loop that fills the set [my_drug_keywords] (lines 144 to
    151). *)
Definition add_keywords (keywords : gset pystr) (drug_item : drug_item) : gset pystr :=
  let drug_name := lower (name drug_item) in
  let ingredient := lower (ingredient drug_item) in
  let keywords :=
    if bool_decide (drug_name ≠ []) then keywords ∪ {[ drug_name ]} else keywords in
  if bool_decide (ingredient ≠ UNKNOWN_INGREDIENT)
  then keywords ∪ {[ ingredient ]} else keywords.

(** The set [my_drug_keywords] after that loop. *)
Definition my_drug_keywords (my_drugs : list drug_item) : gset pystr :=
  foldl add_keywords ∅ my_drugs.

(** The label shown for the keyword that matched (lines 166 to 170). *)
Definition conflict_label (keyword : pystr) : pystr :=
  if bool_decide (keyword ∈ (lower <$> (map_to_list DRUG_INGREDIENT_MAP).*2))
  then u "등록된 약 (성분: " ++ upper keyword ++ u ")"
  else capitalize keyword.

(** The warning built in the body of the inner loop (lines 186 to 190). *)
Definition make_warning (searched : drug_info) (keyword : pystr) : warning :=
  let contra_info_original := interaction searched in
  let contra_info_lower := strip (lower contra_info_original) in
  {| searched_drug := item_name searched;
     conflict_drug := conflict_label keyword;
     info := highlight contra_info_original contra_info_lower keyword |}.

(** One turn of the outer loop (lines 154 to 191). The state is the list
    [warnings] and, as a ghost, the records the loop has looked at. *)
Definition inspect (order : list pystr) (state : list warning * list drug_info)
    (searched : drug_info) : list warning * list drug_info :=
  let contra_info_lower := strip (lower (interaction searched)) in
  let warnings :=
    if bool_decide (contra_info_lower = NO_INFO) then state.1
    else match first_keyword order contra_info_lower with
         | Some keyword => state.1 ++ [make_warning searched keyword]
         | None => state.1
         end in
  (warnings, state.2 ++ [searched]).

(** [check_contraindications] (lines 132 to 193) with the ghost list of
    inspected records; [order] is the order in which the keyword set is
    walked. *)
Definition check_contraindications_run (order : list pystr)
    (searched_drug_info_list : list drug_info) (my_drugs : list drug_item)
    : list warning * list drug_info :=
  match my_drugs with
  | [] => ([], [])
  | _ => foldl (inspect order) ([], []) searched_drug_info_list
  end.

(** The list the function returns. *)
Definition check_contraindications (order : list pystr)
    (searched_drug_info_list : list drug_info) (my_drugs : list drug_item) : list warning :=
  (check_contraindications_run order searched_drug_info_list my_drugs).1.

End Matcher.

(** ** The medication list in the session *)

(** The session: the entry "my_drugs", when there is one. *)
Record session : Type := {
  my_drugs_entry : option (list drug_item);
}.

(** [session.get('my_drugs', [])]. *)
Definition my_drugs_of (s : session) : list drug_item := default [] (my_drugs_entry s).

Section Routes.
Context `{World}.

(** [add_drug] (lines 197 to 223) for the form value [raw_drug_input]
    ([None]: the form has no field "my_drug_name"). *)
Definition add_drug (raw_drug_input : option pystr) (s : session) : session :=
  let drug_to_add :=
    match raw_drug_input with
    | Some (c :: r) => strip (c :: r)
    | _ => []
    end in
  let my_drugs := my_drugs_of s in
  match drug_to_add with
  | [] => {| my_drugs_entry := Some my_drugs |}
  | _ =>
      let ingredient :=
        default UNKNOWN_INGREDIENT (DRUG_INGREDIENT_MAP !! capitalize drug_to_add) in
      let new_drug_item := {| name := capitalize drug_to_add; ingredient := ingredient |} in
      let current_drugs_lower := (fun d => lower (name d)) <$> my_drugs in
      if bool_decide (lower (name new_drug_item) ∉ current_drugs_lower)
      then {| my_drugs_entry := Some (my_drugs ++ [new_drug_item]) |}
      else {| my_drugs_entry := Some my_drugs |}
  end.

(** [remove_drug] (lines 225 to 239). *)
Definition remove_drug (drug_name : pystr) (s : session) : session :=
  let decoded_drug_name := unquote drug_name in
  match my_drugs_entry s with
  | Some my_drugs =>
      {| my_drugs_entry :=
           Some (filter (fun d => lower (name d) ≠ lower decoded_drug_name) my_drugs) |}
  | None => s
  end.

(** [clear_drugs] (lines 241 to 247). *)
Definition clear_drugs (s : session) : session :=
  {| my_drugs_entry := None |}.

(** [index] (lines 250 to 273) for a POST with the form value [search_term],
    up to the call of [render_template]: the value is the pair of
    [drug_info_list] and [warnings] that is handed to the template. What the
    template engine does with it is not part of the model. *)
Definition index (order : list pystr) (search_term : option pystr) (s : session)
    : io (option (list drug_info) * list warning) :=
  let my_drugs := my_drugs_of s in
  match search_term with
  | Some (c :: r) =>
      drug_info_list ← search_drug_info (c :: r);
      match drug_info_list with
      | Some (i :: l) =>
          mret (drug_info_list, check_contraindications order (i :: l) my_drugs)
      | _ => mret (drug_info_list, [])
      end
  | _ => mret (None, [])
  end.

End Routes.

(** ** Predicates of the statements *)

(** A code point that the tables neither produce nor change. *)
Definition caseless (c : N) : bool :=
  negb ((65 <=? c) && (c <=? 90)) && negb ((97 <=? c) && (c <=? 122))
  && negb (c =? 304) && negb (c =? 775).

(** The lower case of one code point of the tables other than U+0130. *)
Definition lower_one (c : N) : N :=
  if (65 <=? c) && (c <=? 90) then c + 32 else c.

(** A record whose interaction text, and an entry whose name and ingredient,
    are written in the plain alphabet. *)
Definition plain_record (r : drug_info) : bool := plain_text (interaction r).
Definition plain_item (d : drug_item) : bool :=
  plain_text (name d) && plain_text (ingredient d).

Section MatcherPredicates.
Context `{Python}.

(** The interaction text as the matcher compares it. *)
Definition contra_info_lower (r : drug_info) : pystr := strip (lower (interaction r)).

(** The record calls for a warning: its text is not the sentinel and a
    keyword of the index occurs in it. *)
Definition emits (keywords : gset pystr) (r : drug_info) : Prop :=
  contra_info_lower r ≠ NO_INFO ∧
  ∃ keyword, keyword ∈ keywords ∧ contains keyword (contra_info_lower r) = true.

#[export] Instance emits_dec (keywords : gset pystr) (r : drug_info) : Decision (emits keywords r).
Proof.
  unfold emits. apply and_dec; [apply _|].
  apply (set_Exists_dec (fun keyword => contains keyword (contra_info_lower r) = true)).
Defined.

(** The warning of one record, if any. *)
Definition warn (order : list pystr) (r : drug_info) : option warning :=
  if bool_decide (contra_info_lower r = NO_INFO) then None
  else make_warning r <$> first_keyword order (contra_info_lower r).

(** The relation between a record and the warning made for it. *)
Definition warning_of (keywords : gset pystr) (order : list pystr)
    (r : drug_info) (w : warning) : Prop :=
  ∃ keyword,
    keyword ∈ keywords ∧
    first_keyword order (contra_info_lower r) = Some keyword ∧
    w = make_warning r keyword.

(** What one entry contributes to the index: the lower case of its name
    when that is not empty, and the lower case of its ingredient when that is
    not the sentinel. *)
Definition contributes (d : drug_item) (keyword : pystr) : Prop :=
  (lower (name d) ≠ [] ∧ keyword = lower (name d)) ∨
  (lower (ingredient d) ≠ UNKNOWN_INGREDIENT ∧ keyword = lower (ingredient d)).

(** The medication list holds no two entries with the same lower-cased
    name. *)
Definition unique_names (my_drugs : list drug_item) : Prop :=
  NoDup ((fun d => lower (name d)) <$> my_drugs).

(** The standard output can encode the text. *)
Definition printable (text : pystr) : bool := forallb stdout_encodes text.

End MatcherPredicates.

(** A computation that sends no request: it has one result and leaves the
    log as it is. *)
Definition quiet {A : Type} (m : io A) : Prop :=
  ∃ r : res A, ∀ log, m log = (r, log).

Section Stage.
Context `{World}.

(** What one request yields: the value [perform_search] returns. *)
Definition stage_result (p : params) (original_drug_name : pystr)
    (multiple_results : bool) : option (list drug_info) :=
  match (perform_search p original_drug_name multiple_results []).1 with
  | Ret r => r
  | Exc _ => None
  end.

(** The lines printed for a record can be encoded: its name, as the
    f-string formats it, and its interaction text. *)
Definition printable_record (r : drug_info) : bool :=
  printable (py_str (item_name r)) && printable (interaction r).

(** How a stage that has found [drug_info_list] ends: with the list, or in
    the exception of a line that cannot be printed. *)
Definition reported (drug_info_list : option (list drug_info))
    : res (option (list drug_info)) :=
  if forallb printable_record (default [] drug_info_list)
  then Ret drug_info_list else Exc UnicodeEncodeError.



End Stage.

Section Reach.
Context `{World}.

(** The sessions the three routes that change the list lead to, from a
    session that has no list yet. *)
Inductive reachable : session → Prop :=
| reach_start :
    reachable {| my_drugs_entry := None |}
| reach_add raw_drug_input s :
    reachable s → reachable (add_drug raw_drug_input s)
| reach_remove drug_name s :
    reachable s → reachable (remove_drug drug_name s)
| reach_clear s :
    reachable s → reachable (clear_drugs s).

End Reach.

(** An entry as [add_drug] builds it: a name that is not empty, and the
    ingredient the map has for this name, or the sentinel. *)
Definition built_by_add (d : drug_item) : Prop :=
  name d ≠ [] ∧
  ingredient d = default UNKNOWN_INGREDIENT (DRUG_INGREDIENT_MAP !! name d).

(** A response body that is valid JSON and has not the shape of a result:
    it is no dict, or its header is no dict, or its body is no dict, or its
    items are no list, or one of the items is no dict. *)
Inductive malformed : json → Prop :=
| malformed_top search_data :
    (∀ d, search_data ≠ JObj d) →
    malformed search_data
| malformed_header d header :
    d !! u "header" = Some header →
    (∀ h, header ≠ JObj h) →
    malformed (JObj d)
| malformed_body d body :
    d !! u "body" = Some body →
    (∀ b, body ≠ JObj b) →
    malformed (JObj d)
| malformed_items d b items :
    d !! u "body" = Some (JObj b) →
    b !! u "items" = Some items →
    (∀ l, items ≠ JArr l) →
    malformed (JObj d)
| malformed_item d b l item :
    d !! u "body" = Some (JObj b) →
    b !! u "items" = Some (JArr l) →
    item ∈ l →
    (∀ i, item ≠ JObj i) →
    malformed (JObj d).

(** The names of the records a list of warnings is about, and the names of
    a list of records. *)
Definition flagged (warnings : list warning) : list json := searched_drug <$> warnings.
Definition names (records : list drug_info) : list json := item_name <$> records.

(** ** Concrete inputs *)

(** A Python whose case mappings are the tables on every string and whose
    standard output is encoded as UTF-8. It serves to run the definitions on
    texts of the plain alphabet. *)
Definition plain_python : Python.
Proof.
  refine {| lower := table_lower;
            upper := table_upper;
            capitalize := table_capitalize;
            stdout_encodes := fun c => negb ((55296 <=? c) && (c <=? 57343));
            lower_table := fun _ _ => eq_refl;
            upper_table := fun _ _ => eq_refl;
            capitalize_table := fun _ _ => eq_refl;
            lower_nil := _;
            capitalize_nil := _;
            stdout_plain := _ |}.
  - intros [|c s]; [done|]. simpl. unfold table_lower_cp.
    by repeat case_match.
  - intros [|c s]; [done|]. simpl. unfold table_upper_cp.
    by repeat case_match.
  - intros c Hc. unfold hangul in Hc.
    destruct (N.leb_spec 55296 c); [|done].
    destruct (N.ltb_spec c 128); [lia|].
    destruct (N.leb_spec 44032 c), (N.leb_spec c 55203); simpl in Hc; try done. lia.
Defined.

(** A world without a service: every request fails in transport; the
    library functions leave their argument as it is. *)
Definition offline (key : option pystr) : World :=
  {| python := plain_python;
     SERVICE_KEY := key;
     service := fun _ => Unreachable;
     quote := fun s => Some s;
     unquote := fun s => s;
     str_container := fun _ => [] |}.

(** A service with one answer for a request by trade name and one for a
    request by ingredient. *)
Definition stub (key : option pystr) (by_item by_ingr : reply) : World :=
  {| python := plain_python;
     SERVICE_KEY := key;
     service := fun p => match p !! u "itemName" with
                         | Some _ => by_item
                         | None => by_ingr
                         end;
     quote := fun s => Some s;
     unquote := fun s => s;
     str_container := fun _ => [] |}.

(** A record that has only a name and an interaction text. *)
Definition record_of (item_name interaction : pystr) : drug_info :=
  {| effect := NO_INFO; dosage := NO_INFO; precaution := NO_INFO;
     interaction := interaction; ingredient_text := NO_INFO;
     item_name := JStr item_name; itemSeq := JNull |}.

(** Entries of a medication list. *)
Definition tylenol_en : drug_item :=
  {| name := u "Tylenol"; ingredient := u "Acetaminophen" |}.
Definition tylenol_ko : drug_item :=
  {| name := u "타이레놀"; ingredient := u "아세트아미노펜" |}.
Definition aspirin_en : drug_item :=
  {| name := u "Aspirin"; ingredient := UNKNOWN_INGREDIENT |}.
Definition no_ingredient : drug_item :=
  {| name := u "Mystery"; ingredient := [] |}.

(** One item of a response. *)
Definition aspirin_item : gmap pystr json :=
  {[ u "itemName" := JStr (u "아스피린정");
     u "intrcQesitm" := JStr (u "<p>아세트아미노펜과 함께 복용하지 마십시오</p>") ]}.

(** A response body with the accepted result code and one item. *)
Definition aspirin_envelope : json :=
  JObj {[ u "header" := JObj {[ u "resultCode" := JStr (u "00") ]};
          u "body" := JObj {[ u "items" := JArr [JObj aspirin_item] ]} ]}.

(** A response body whose one item has a name with a lone surrogate, which
    JSON can write and UTF-8 cannot encode. *)
Definition surrogate_envelope : json :=
  JObj {[ u "header" := JObj {[ u "resultCode" := JStr (u "00") ]};
          u "body" := JObj {[ u "items" :=
            JArr [JObj {[ u "itemName" := JStr [55296] ]}] ]} ]}.

(** ** The models at work *)

Section Examples.
#[local] Existing Instance plain_python.

Example u_hangul : u "정보 없음" = [51221; 48372; 32; 50630; 51020].
Proof. reflexivity. Qed.

Example lower_ascii : lower (u "Avoid WITH Aspirin") = u "avoid with aspirin".
Proof. reflexivity. Qed.

Example capitalize_ascii : capitalize (u "aBC dEF") = u "Abc def".
Proof. reflexivity. Qed.

Example replace_tags : replace (u "</p>") [] (replace (u "<p>") [] (u "<p>abc</p>")) = u "abc".
Proof. reflexivity. Qed.

Example strip_both : strip (u "  a b ") = u "a b".
Proof. reflexivity. Qed.

Example str_index_found : str_index (u "avoid with aspirin") (u "aspirin") = Some 11%nat.
Proof. reflexivity. Qed.

Example str_int_decimal : str_int 120 = u "120".
Proof. reflexivity. Qed.

Example aspirin_highlighted :
  check_contraindications [u "aspirin"] [record_of (u "X") (u "Avoid with Aspirin")] [aspirin_en]
  = [ {| searched_drug := JStr (u "X"); conflict_drug := u "Aspirin";
         info := u "Avoid with <b>Aspirin</b>" |} ].
Proof. vm_compute. reflexivity. Qed.

(** A search from end to end: the service answers the request by trade name
    with one item, and the user takes 타이레놀. *)
Example index_end_to_end :
  (@index (stub (Some (u "key")) (Response 200 (Some aspirin_envelope)) Unreachable)
     [u "타이레놀"; u "아세트아미노펜"] (Some (u "아스피린"))
     {| my_drugs_entry := Some [tylenol_ko] |} []).1
  = Ret (Some [record_of (u "아스피린정") (u "아세트아미노펜과 함께 복용하지 마십시오")],
         [ {| searched_drug := JStr (u "아스피린정");
              conflict_drug := u "등록된 약 (성분: 아세트아미노펜)";
              info := u "<b>아세트아미노펜</b>과 함께 복용하지 마십시오" |} ]).
Proof. by vm_compute. Qed.

(** The same search when the name of the item holds a lone surrogate: the
    stage finds the record, and the line that prints its name raises. *)
Example index_surrogate :
  (@index (stub (Some (u "key")) (Response 200 (Some surrogate_envelope)) Unreachable)
     [u "타이레놀"; u "아세트아미노펜"] (Some (u "아스피린"))
     {| my_drugs_entry := Some [tylenol_ko] |} []).1
  = Exc UnicodeEncodeError.
Proof. by vm_compute. Qed.

End Examples.

(** ** Facts about strings *)

Section StringFacts.

(** The empty string is found in every string, and [in] agrees with
    [index]. *)
Lemma startswith_nil s : startswith [] s = true.
Proof. by destruct s. Qed.

Lemma contains_nil s : contains [] s = true.
Proof. destruct s; simpl; by rewrite ?startswith_nil. Qed.

Lemma contains_index sub s : contains sub s = true ↔ is_Some (str_index s sub).
Proof.
  induction s as [|c s IH]; simpl.
  - destruct (startswith sub []); simpl.
    + split; [by eexists | done].
    + split; [done | by intros [? ?]].
  - destruct (startswith sub (c :: s)); simpl.
    + split; [by eexists | done].
    + by rewrite IH, fmap_is_Some.
Qed.

(** The tables map every code point to at least one. *)
Lemma table_lower_cp_not_nil c : table_lower_cp c ≠ [].
Proof. unfold table_lower_cp. repeat case_match; done. Qed.

(** The table of the lower case leaves alone, and only produces from
    itself, a string of caseless code points such as the sentinel of an
    unknown ingredient. *)
Lemma table_lower_cp_caseless c : caseless c = true → table_lower_cp c = [c].
Proof.
  unfold caseless, table_lower_cp. intros Hc.
  destruct ((65 <=? c) && (c <=? 90)); [done|].
  destruct (c =? 304); [|done]. by rewrite !andb_false_r in Hc.
Qed.

Lemma table_lower_caseless t : forallb caseless t = true → table_lower t = t.
Proof.
  induction t as [|c t IH]; [done|]. simpl.
  intros [Hc Ht]%andb_true_iff. rewrite table_lower_cp_caseless by done.
  simpl. by rewrite IH.
Qed.

(** The head of a lower-cased code point is itself or not caseless. *)
Lemma table_lower_cp_head c x rest :
  table_lower_cp c = x :: rest → caseless x = true → x = c ∧ rest = [].
Proof.
  unfold table_lower_cp.
  destruct ((65 <=? c) && (c <=? 90)) eqn:Hup.
  - intros [= <- <-] Hx. exfalso.
    apply andb_true_iff in Hup as [H1 H2].
    apply N.leb_le in H1, H2.
    unfold caseless in Hx.
    assert ((97 <=? c + 32) && (c + 32 <=? 122) = true) as Hlow.
    { apply andb_true_iff; split; apply N.leb_le; lia. }
    rewrite Hlow in Hx. by rewrite andb_false_r in Hx.
  - destruct (c =? 304) eqn:H304.
    + intros [= <- <-] Hx. by vm_compute in Hx.
    + by intros [= <- <-].
Qed.

Lemma table_lower_eq_caseless s t :
  forallb caseless t = true → table_lower s = t → s = t.
Proof.
  revert t. induction s as [|c s IH]; intros t Ht; simpl.
  - by intros <-.
  - destruct (table_lower_cp c) as [|x rest] eqn:Hc;
      [by apply table_lower_cp_not_nil in Hc|].
    intros <-. simpl in Ht. apply andb_true_iff in Ht as [Hx Ht].
    destruct (table_lower_cp_head _ _ _ Hc Hx) as [-> ->].
    simpl in *. f_equal. by apply IH.
Qed.

Lemma lstrip_idemp (s : pystr) : lstrip (lstrip s) = lstrip s.
Proof.
  induction s as [|c s IH]; simpl; [done|].
  destruct (isspace c) eqn:Hc; [done|]. simpl. by rewrite Hc.
Qed.

Lemma lstrip_snoc (s : pystr) (c : N) :
  isspace c = false → lstrip (s ++ [c]) = lstrip s ++ [c].
Proof.
  intros Hc. induction s as [|x s IH]; simpl.
  - by rewrite Hc.
  - by destruct (isspace x).
Qed.

Lemma rstrip_idemp (s : pystr) : rstrip (rstrip s) = rstrip s.
Proof. unfold rstrip. by rewrite rev_involutive, lstrip_idemp. Qed.

Lemma rstrip_cons (c : N) (s : pystr) :
  isspace c = false → rstrip (c :: s) = c :: rstrip s.
Proof.
  intros Hc. unfold rstrip. simpl.
  by rewrite lstrip_snoc, rev_app_distr.
Qed.

(** A stripped string has no whitespace left at either end. *)
Lemma strip_trimmed (s : pystr) :
  lstrip (strip s) = strip s ∧ rstrip (strip s) = strip s.
Proof.
  unfold strip. split; [|apply rstrip_idemp].
  pose proof (lstrip_idemp s) as Hl.
  destruct (lstrip s) as [|c t]; [done|].
  simpl in Hl. destruct (isspace c) eqn:Hc.
  - exfalso. assert (length (lstrip t) <= length t)%nat as Hlen.
    { clear. induction t as [|x t IH]; simpl; [done|].
      destruct (isspace x); simpl; lia. }
    rewrite Hl in Hlen. simpl in Hlen. lia.
  - rewrite rstrip_cons by done. simpl. by rewrite Hc.
Qed.

Lemma table_lower_fmap (s : pystr) : 304 ∉ s → table_lower s = lower_one <$> s.
Proof.
  induction s as [|c s IH]; [done|].
  intros Hnot. apply not_elem_of_cons in Hnot as [Hc Hs]. simpl.
  rewrite IH by done. unfold table_lower_cp, lower_one.
  destruct ((65 <=? c) && (c <=? 90)); [done|].
  destruct (N.eqb_spec c 304); [congruence | done].
Qed.

Lemma isspace_lower_one (c : N) : isspace (lower_one c) = isspace c.
Proof.
  unfold lower_one. destruct ((65 <=? c) && (c <=? 90)) eqn:Hup; [|done].
  apply andb_true_iff in Hup as [H1%N.leb_le H2%N.leb_le].
  unfold isspace.
  repeat match goal with
  | |- context [N.leb ?a ?b] => destruct (N.leb_spec a b); try lia
  | |- context [N.eqb ?a ?b] => destruct (N.eqb_spec a b); try lia
  end; done.
Qed.

Lemma lstrip_fmap_lower_one (s : pystr) :
  lstrip (lower_one <$> s) = lower_one <$> lstrip s.
Proof.
  induction s as [|c s IH]; [done|]. simpl.
  rewrite isspace_lower_one. by destruct (isspace c).
Qed.

Lemma lstrip_suffix (s : pystr) : ∃ front, s = front ++ lstrip s.
Proof.
  induction s as [|c s [front IH]]; [by exists []|]. simpl.
  destruct (isspace c).
  - exists (c :: front). simpl. by rewrite <- IH.
  - by exists [].
Qed.

Lemma rstrip_prefix (s : pystr) : ∃ back, s = rstrip s ++ back.
Proof.
  unfold rstrip. destruct (lstrip_suffix (rev s)) as [front Hfront].
  exists (rev front). rewrite <- rev_app_distr, <- Hfront. by rewrite rev_involutive.
Qed.

Lemma startswith_take (p s : pystr) :
  startswith p s = true → take (length p) s = p ∧ (length p ≤ length s)%nat.
Proof.
  revert s. induction p as [|a p IH]; intros [|b s]; simpl; try done.
  - split; [done | lia].
  - intros [Hab%N.eqb_eq Hrest]%andb_true_iff. subst b.
    destruct (IH s Hrest) as [-> Hlen]. split; [done | lia].
Qed.

(** The position [str_index] gives is the position of an occurrence. *)
Lemma str_index_Some (s sub : pystr) (i : nat) :
  str_index s sub = Some i →
  take (length sub) (drop i s) = sub ∧ (i + length sub ≤ length s)%nat.
Proof.
  revert i. induction s as [|c s IH]; intros i; simpl.
  - destruct (startswith sub []) eqn:Hstart; [|done].
    intros [= <-]. by apply startswith_take in Hstart.
  - destruct (startswith sub (c :: s)) eqn:Hstart.
    + intros [= <-]. by apply startswith_take in Hstart.
    + destruct (str_index s sub) as [j|] eqn:Hj; [|done].
      intros [= <-]. destruct (IH j eq_refl) as [Htake Hlen].
      simpl. split; [done | lia].
Qed.

(** No position before the one [str_index] gives is one of an occurrence. *)
Lemma str_index_first (s sub : pystr) (i j : nat) :
  str_index s sub = Some i → (j < i)%nat → startswith sub (drop j s) = false.
Proof.
  revert i j. induction s as [|c s IH]; intros i j; simpl.
  - destruct (startswith sub []); [|done]. intros [= <-]. lia.
  - destruct (startswith sub (c :: s)) eqn:Hstart.
    + intros [= <-]. lia.
    + destruct (str_index s sub) as [k|] eqn:Hk; [|done].
      intros [= <-] Hlt. destruct j as [|j]; [done|].
      simpl. apply (IH k); [done | lia].
Qed.

(** Whitespace is plain and caseless, and a string of whitespace is
    stripped to nothing. *)
Lemma isspace_plain (c : N) : isspace c = true → plain c = true.
Proof. unfold plain. intros ->. by rewrite orb_true_r. Qed.

Lemma isspace_caseless (c : N) : isspace c = true → caseless c = true.
Proof.
  unfold isspace, caseless. intros Hspace.
  repeat match goal with
  | |- context [N.leb ?a ?b] => destruct (N.leb_spec a b); try lia
  | |- context [N.eqb ?a ?b] => destruct (N.eqb_spec a b); try lia
  end; try done.
  all: exfalso; revert Hspace;
    repeat match goal with
    | |- context [N.leb ?a ?b] => destruct (N.leb_spec a b); try lia
    | |- context [N.eqb ?a ?b] => destruct (N.eqb_spec a b); try lia
    end; done.
Qed.

Lemma lstrip_blank (text : pystr) : forallb isspace text = true → lstrip text = [].
Proof.
  induction text as [|c text IH]; [done|]. simpl.
  intros [-> Hrest]%andb_true_iff. by apply IH.
Qed.

(** A string without the first code point of [old] has no occurrence of
    [old] to replace. *)
Lemma replace_from_absent (a : N) (old new text : pystr) :
  a ∉ text → replace_from (a :: old) new O text = text.
Proof.
  induction text as [|c text IH]; [done|].
  intros [Hc Hrest]%not_elem_of_cons. simpl.
  destruct (N.eqb_spec a c); [done|]. simpl. by rewrite IH.
Qed.

Lemma replace_absent (a : N) (old new text : pystr) :
  a ∉ text → replace (a :: old) new text = text.
Proof. apply replace_from_absent. Qed.

(** Parts of a plain text are plain. *)
Lemma plain_text_app (s t : pystr) :
  plain_text (s ++ t) = plain_text s && plain_text t.
Proof. apply forallb_app. Qed.

Lemma plain_text_take (n : nat) (s : pystr) :
  plain_text s = true → plain_text (take n s) = true.
Proof.
  intros Hs. rewrite <- (take_drop n s) in Hs.
  rewrite plain_text_app in Hs. by apply andb_true_iff in Hs as [? _].
Qed.

Lemma plain_text_drop (n : nat) (s : pystr) :
  plain_text s = true → plain_text (drop n s) = true.
Proof.
  intros Hs. rewrite <- (take_drop n s) in Hs.
  rewrite plain_text_app in Hs. by apply andb_true_iff in Hs as [_ ?].
Qed.

(** The decimal digits of a number are ASCII. *)
Lemma str_int_ascii (n : nat) : forallb (fun c => c <? 128) (str_int n) = true.
Proof.
  unfold str_int. induction (Nat.to_uint n) as [|d IH|d IH|d IH|d IH|d IH|d IH|d IH|d IH|d IH|d IH];
    simpl; done.
Qed.

End StringFacts.

(** ** Facts about the case mappings of every Python *)

Section PythonFacts.
Context `{Python}.

Lemma lower_empty : lower [] = [].
Proof. by rewrite lower_table. Qed.

Lemma lower_nil_iff s : lower s = [] ↔ s = [].
Proof. split; [apply lower_nil | intros ->; apply lower_empty]. Qed.

Lemma capitalize_not_nil (text : pystr) : text ≠ [] → capitalize text ≠ [].
Proof. intros Hne Hempty. by apply Hne, capitalize_nil. Qed.

(** A string of whitespace is its own lower case. *)
Lemma lower_blank (text : pystr) : forallb isspace text = true → lower text = text.
Proof.
  intros Hblank. rewrite lower_table.
  - apply table_lower_caseless. apply forallb_forall. intros c Hc.
    apply isspace_caseless. by apply (proj1 (forallb_forall _ _) Hblank).
  - apply forallb_forall. intros c Hc.
    apply isspace_plain. by apply (proj1 (forallb_forall _ _) Hblank).
Qed.

(** A plain string is the sentinel of an unknown ingredient exactly when
    its lower case is. *)
Lemma lower_unknown_iff s :
  plain_text s = true → lower s = UNKNOWN_INGREDIENT ↔ s = UNKNOWN_INGREDIENT.
Proof.
  intros Hs. rewrite lower_table by done. split.
  - by apply table_lower_eq_caseless.
  - intros ->. by apply table_lower_caseless.
Qed.

(** A text of ASCII and Hangul can be printed. *)
Lemma printable_plain (text : pystr) :
  forallb (fun c => (c <? 128) || hangul c) text = true → printable text = true.
Proof.
  unfold printable. rewrite !forallb_forall. intros Hall c Hc.
  apply stdout_plain. by apply Hall.
Qed.

Lemma printable_app (s t : pystr) : printable (s ++ t) = printable s && printable t.
Proof. apply forallb_app. Qed.

Lemma printable_str_int (n : nat) : printable (str_int n) = true.
Proof.
  apply printable_plain. pose proof (str_int_ascii n) as Hn.
  rewrite forallb_forall in Hn. apply forallb_forall. intros c Hc.
  by rewrite (Hn c Hc).
Qed.

Lemma print_run (text : pystr) :
  print text = if printable text then Ret tt else Exc UnicodeEncodeError.
Proof. done. Qed.

End PythonFacts.

(** ** The keyword index *)

Section KeywordIndex.
Context `{Python}.

(** The keywords after one turn, and after the loop. *)
Lemma add_keywords_spec (keywords : gset pystr) (d : drug_item) (keyword : pystr) :
  keyword ∈ add_keywords keywords d ↔ keyword ∈ keywords ∨ contributes d keyword.
Proof.
  unfold add_keywords, contributes. cbv zeta.
  repeat case_bool_decide; rewrite ?elem_of_union, ?elem_of_singleton; naive_solver.
Qed.

Lemma keywords_foldl (my_drugs : list drug_item) (start : gset pystr) (keyword : pystr) :
  keyword ∈ foldl add_keywords start my_drugs
  ↔ keyword ∈ start ∨ ∃ d, d ∈ my_drugs ∧ contributes d keyword.
Proof.
  revert start. induction my_drugs as [|d l IH]; intros start; simpl.
  - split; [by left | intros [?|(d & Hd & _)]; [done | by apply elem_of_nil in Hd]].
  - rewrite IH, add_keywords_spec. setoid_rewrite elem_of_cons. naive_solver.
Qed.

Lemma my_drug_keywords_spec (my_drugs : list drug_item) (keyword : pystr) :
  keyword ∈ my_drug_keywords my_drugs ↔ ∃ d, d ∈ my_drugs ∧ contributes d keyword.
Proof.
  unfold my_drug_keywords. rewrite keywords_foldl.
  split; [intros [Hk|?]; [by apply not_elem_of_empty in Hk | done] | by right].
Qed.


End KeywordIndex.

(** ** The matcher loop *)

Section MatcherFacts.
Context `{Python}.

(** What the inner loop finds. *)
Lemma first_keyword_Some (order : list pystr) (text keyword : pystr) :
  first_keyword order text = Some keyword →
  keyword ∈ order ∧ contains keyword text = true.
Proof.
  induction order as [|k rest IH]; simpl; [done|].
  destruct (contains k text) eqn:Hk.
  - intros [= <-]. split; [by left | done].
  - intros Hrest. destruct (IH Hrest). split; [by right | done].
Qed.

Lemma first_keyword_None (order : list pystr) (text : pystr) :
  first_keyword order text = None ↔ ∀ keyword, keyword ∈ order → contains keyword text = false.
Proof.
  induction order as [|k rest IH]; simpl.
  - split; [intros _ ? Hin; by apply elem_of_nil in Hin | done].
  - destruct (contains k text) eqn:Hk.
    + split; [done|]. intros Hall. specialize (Hall k (list_elem_of_here _ _)). congruence.
    + rewrite IH. split.
      * intros Hall keyword [->|Hin]%elem_of_cons; auto.
      * intros Hall keyword Hin. apply Hall. by right.
Qed.

(** The outer loop appends, record by record, the warning of the record and
    the record itself. *)
Lemma foldl_inspect (order : list pystr) (records : list drug_info)
    (state : list warning * list drug_info) :
  foldl (inspect order) state records
  = (state.1 ++ omap (warn order) records, state.2 ++ records).
Proof.
  revert state. induction records as [|r records IH]; intros [warnings seen]; simpl.
  - by rewrite !app_nil_r.
  - rewrite IH. unfold inspect, warn, contra_info_lower. simpl.
    destruct (bool_decide (strip (lower (interaction r)) = NO_INFO)); simpl.
    + by rewrite <- app_assoc.
    + destruct (first_keyword order (strip (lower (interaction r)))); simpl;
        by rewrite <- !app_assoc.
Qed.

Lemma check_contraindications_run_cons (order : list pystr) (records : list drug_info)
    (d : drug_item) (my_drugs : list drug_item) :
  check_contraindications_run order records (d :: my_drugs)
  = (omap (warn order) records, records).
Proof. unfold check_contraindications_run. by rewrite foldl_inspect. Qed.

(** A record gets a warning exactly when it calls for one. *)
Lemma warn_is_Some (keywords : gset pystr) (order : list pystr) (r : drug_info) :
  iterates keywords order →
  is_Some (warn order r) ↔ emits keywords r.
Proof.
  intros Horder. unfold warn, emits.
  case_bool_decide as Hs.
  - split; [by intros [? ?] | by intros [? _]].
  - rewrite fmap_is_Some. split.
    + intros [keyword Hk]. apply first_keyword_Some in Hk as [Hin Hc].
      split; [done|]. exists keyword. split; [|done].
      apply elem_of_elements. by rewrite <- Horder.
    + intros [_ (keyword & Hin & Hc)].
      destruct (first_keyword order (contra_info_lower r)) eqn:Hf; [by eexists|].
      rewrite first_keyword_None in Hf.
      rewrite (Hf keyword) in Hc; [done|].
      rewrite Horder. by apply elem_of_elements.
Qed.

(** The warnings of a list of records, against the records that call for
    one. *)
Lemma omap_warn_filter (keywords : gset pystr) (order : list pystr) (records : list drug_info) :
  iterates keywords order →
  Forall2 (warning_of keywords order) (filter (emits keywords) records) (omap (warn order) records).
Proof.
  intros Horder. induction records as [|r records IH]; simpl; [constructor|].
  rewrite filter_cons.
  pose proof (warn_is_Some keywords order r Horder) as Hiff.
  destruct (decide (emits keywords r)) as [He|He].
  - apply Hiff in He as [w Hw]. rewrite Hw. constructor; [|done].
    unfold warn in Hw. case_bool_decide; [done|].
    apply fmap_Some in Hw as (keyword & Hk & ->).
    exists keyword. split_and!; [|done..].
    apply first_keyword_Some in Hk as [Hin _].
    apply elem_of_elements. by rewrite <- Horder.
  - destruct (warn order r) eqn:Hw; [|done].
    exfalso. apply He, Hiff. by eexists.
Qed.

Lemma omap_warn_nil (records : list drug_info) : omap (warn []) records = [].
Proof.
  induction records as [|r records IH]; simpl; [done|].
  unfold warn at 1. simpl. by case_bool_decide.
Qed.

Lemma iterates_empty (order : list pystr) : iterates ∅ order → order = [].
Proof.
  unfold iterates. rewrite elements_empty. apply Permutation_nil_r.
Qed.

(** The warnings are those of the records that call for one. *)
Lemma check_contraindications_filter (order : list pystr) (records : list drug_info)
    (my_drugs : list drug_item) :
  iterates (my_drug_keywords my_drugs) order →
  Forall2 (warning_of (my_drug_keywords my_drugs) order)
    (filter (emits (my_drug_keywords my_drugs)) records)
    (check_contraindications order records my_drugs).
Proof.
  intros Horder.
  pose proof (omap_warn_filter _ _ records Horder) as Hall.
  destruct my_drugs as [|d my_drugs].
  - apply iterates_empty in Horder. subst order.
    rewrite omap_warn_nil in Hall. exact Hall.
  - unfold check_contraindications.
    by rewrite check_contraindications_run_cons.
Qed.

(** The keywords that are the lower case of a value of the ingredient map. *)
Lemma ingredient_keyword_iff (keyword : pystr) :
  keyword ∈ lower <$> (map_to_list DRUG_INGREDIENT_MAP).*2 ↔
  ∃ key value, DRUG_INGREDIENT_MAP !! key = Some value ∧ keyword = lower value.
Proof.
  rewrite list_elem_of_fmap. split.
  - intros (value & -> & Hv). apply list_elem_of_fmap in Hv as ([key v] & -> & Hkv).
    apply elem_of_map_to_list in Hkv. by exists key, v.
  - intros (key & value & Hkv & ->). exists value. split; [done|].
    apply list_elem_of_fmap. exists (key, value). split; [done|].
    by apply elem_of_map_to_list.
Qed.

(** When the keyword is found, the [except] branch is not taken; when it is
    not found, the text is left unmarked. *)
Lemma highlight_branches (original lowered keyword : pystr) :
  (contains keyword lowered = true → is_Some (str_index lowered keyword)) ∧
  (str_index lowered keyword = None → highlight original lowered keyword = original).
Proof.
  split.
  - apply contains_index.
  - intros Hnone. unfold highlight. by rewrite Hnone.
Qed.

(** For a text that does not start with whitespace and has no U+0130, whose
    lower case is taken with the table, the marker is put around the first
    occurrence of the keyword up to case, and what it encloses is the text as
    written. *)
Lemma highlight_wraps_first_occurrence (text keyword : pystr) (i : nat) :
  lstrip text = text →
  304 ∉ text →
  str_index (strip (table_lower text)) keyword = Some i →
  ∃ found,
    length found = length keyword ∧
    table_lower found = keyword ∧
    text = take i text ++ found ++ drop (i + length keyword) text ∧
    (∀ j, (j < i)%nat → startswith keyword (drop j (strip (table_lower text))) = false) ∧
    highlight text (strip (table_lower text)) keyword
    = take i text ++ u "<b>" ++ found ++ u "</b>" ++ drop (i + length keyword) text.
Proof.
  intros Hleft Hno Hindex.
  pose proof (str_index_Some _ _ _ Hindex) as [Htake Hlen].
  assert (strip (table_lower text) = rstrip (lower_one <$> text)) as Hstrip.
  { unfold strip. by rewrite table_lower_fmap, lstrip_fmap_lower_one, Hleft. }
  destruct (rstrip_prefix (lower_one <$> text)) as [back Hback].
  rewrite Hstrip in Htake, Hlen.
  assert (length (rstrip (lower_one <$> text)) ≤ length text)%nat as Hshort.
  { rewrite <- (length_fmap lower_one text). rewrite Hback at 2.
    rewrite length_app. lia. }
  exists (take (length keyword) (drop i text)). split_and!.
  - rewrite length_take, length_drop. lia.
  - rewrite table_lower_fmap.
    + rewrite fmap_take, fmap_drop, Hback.
      rewrite drop_app_le by lia. rewrite take_app_le; [done|].
      rewrite length_drop. lia.
    + intros Hin. apply Hno.
      apply (subseteq_take (length keyword)) in Hin.
      by apply (subseteq_drop i) in Hin.
  - rewrite <- (take_drop i text) at 1. f_equal.
    rewrite <- (take_drop (length keyword) (drop i text)) at 1. f_equal.
    rewrite drop_drop. done.
  - intros j Hj. by apply (str_index_first _ _ i).
  - unfold highlight. rewrite Hindex. unfold slice_to, slice, slice_from.
    by replace (i + length keyword - i)%nat with (length keyword) by lia.
Qed.

End MatcherFacts.

(** ** On plain texts every Python computes what the tables compute *)

Section PlainTexts.
Context `{Python}.

Lemma ingredient_values_plain :
  map_Forall (fun _ value => plain_text value = true) DRUG_INGREDIENT_MAP.
Proof. apply (bool_decide_unpack _). by vm_compute. Qed.

Lemma add_keywords_plain (keywords : gset pystr) (d : drug_item) :
  plain_item d = true →
  add_keywords keywords d = @add_keywords plain_python keywords d.
Proof.
  intros [Hname Hingredient]%andb_true_iff. unfold add_keywords.
  by rewrite !lower_table.
Qed.

Lemma my_drug_keywords_plain (my_drugs : list drug_item) :
  forallb plain_item my_drugs = true →
  my_drug_keywords my_drugs = @my_drug_keywords plain_python my_drugs.
Proof.
  unfold my_drug_keywords. generalize (∅ : gset pystr).
  induction my_drugs as [|d l IH]; intros start; simpl; [done|].
  intros [Hd Hl]%andb_true_iff. rewrite add_keywords_plain by done. by apply IH.
Qed.

Lemma conflict_label_plain (keyword : pystr) :
  plain_text keyword = true →
  conflict_label keyword = @conflict_label plain_python keyword.
Proof.
  intros Hk. unfold conflict_label.
  assert (lower <$> (map_to_list DRUG_INGREDIENT_MAP).*2
          = table_lower <$> (map_to_list DRUG_INGREDIENT_MAP).*2) as ->.
  { apply Forall_fmap_ext. apply Forall_forall. intros value Hvalue.
    apply list_elem_of_fmap in Hvalue as ([key v] & -> & Hkv).
    apply elem_of_map_to_list in Hkv.
    apply lower_table. exact (ingredient_values_plain key v Hkv). }
  by rewrite upper_table, capitalize_table.
Qed.

Lemma warn_plain (order : list pystr) (r : drug_info) :
  forallb plain_text order = true →
  plain_record r = true →
  warn order r = @warn plain_python order r.
Proof.
  intros Horder Hr. unfold warn, contra_info_lower.
  rewrite lower_table by done. simpl.
  case_bool_decide; [done|].
  destruct (first_keyword order (strip (table_lower (interaction r)))) as [keyword|] eqn:Hk;
    [|done].
  simpl. f_equal. unfold make_warning.
  rewrite lower_table by done. rewrite conflict_label_plain; [done|].
  apply first_keyword_Some in Hk as [Hin _].
  by apply (proj1 (forallb_forall _ _) Horder), list_elem_of_In.
Qed.

Lemma omap_warn_plain (order : list pystr) (records : list drug_info) :
  forallb plain_text order = true →
  forallb plain_record records = true →
  omap (warn order) records = omap (@warn plain_python order) records.
Proof.
  intros Horder. induction records as [|r records IH]; [done|].
  intros [Hr Hrecords]%andb_true_iff.
  cbn [omap list_omap]. rewrite warn_plain, IH by done. done.
Qed.

Lemma check_contraindications_plain (order : list pystr) (records : list drug_info)
    (my_drugs : list drug_item) :
  forallb plain_text order = true →
  forallb plain_record records = true →
  check_contraindications order records my_drugs
  = @check_contraindications plain_python order records my_drugs.
Proof.
  intros Horder Hrecords. unfold check_contraindications.
  destruct my_drugs as [|d my_drugs]; [done|].
  rewrite check_contraindications_run_cons.
  rewrite (@check_contraindications_run_cons plain_python).
  by apply omap_warn_plain.
Qed.

End PlainTexts.

(** ** Theorems about the keyword index and the matcher *)

Section MatcherTheorems.
Context `{Python}.

(** C1. The scenario of the specification, in the constants of the program
    (타이레놀 is its Tylenol, 아세트아미노펜 its acetaminophen, and the
    composed label is "등록된 약 (성분: ...)"): with the medication list of
    the one entry 타이레놀 / 아세트아미노펜 and one record whose interaction
    text names 아세트아미노펜, the matcher gives exactly one warning, and its
    label is the composed label of an ingredient, in every order of the
    keywords. In general a keyword that is the lower case of a value of the
    ingredient map gets the composed label with the keyword in upper case,
    and every other keyword is shown capitalised. *)
Theorem ingredient_keyword_gets_composed_label (order : list pystr) :
  iterates (my_drug_keywords [tylenol_ko]) order →
  check_contraindications order
    [record_of (u "아스피린") (u "아세트아미노펜과 함께 복용하지 마십시오")] [tylenol_ko]
  = [ {| searched_drug := JStr (u "아스피린");
         conflict_drug := u "등록된 약 (성분: 아세트아미노펜)";
         info := u "<b>아세트아미노펜</b>과 함께 복용하지 마십시오" |} ]
  ∧ (∀ key value, DRUG_INGREDIENT_MAP !! key = Some value →
       conflict_label (lower value)
       = u "등록된 약 (성분: " ++ upper (lower value) ++ u ")")
  ∧ (∀ keyword,
       (∀ key value, DRUG_INGREDIENT_MAP !! key = Some value → lower value ≠ keyword) →
       conflict_label keyword = capitalize keyword).
Proof.
  intros Horder. split_and!.
  - rewrite my_drug_keywords_plain in Horder by reflexivity.
    unfold iterates in Horder. vm_compute in Horder. symmetry in Horder.
    apply Permutation_length_2_inv in Horder as [-> | ->];
      rewrite check_contraindications_plain by reflexivity; by vm_compute.
  - intros key value Hkv. unfold conflict_label.
    rewrite bool_decide_eq_true_2; [done|].
    apply ingredient_keyword_iff. by exists key, value.
  - intros keyword Hnot. unfold conflict_label.
    rewrite bool_decide_eq_false_2; [done|].
    intros (key & value & Hkv & ->)%ingredient_keyword_iff.
    by apply (Hnot key value).
Qed.


(** C7. The keyword index holds exactly, for each entry of the medication
    list, the lower-cased name when the name is not empty and the lower-cased
    ingredient when that is not the sentinel of an unknown ingredient, which
    for an ingredient written in the plain alphabet is to say that the
    ingredient is not the sentinel; the list with the one entry Tylenol /
    Acetaminophen gives the index of "tylenol" and "acetaminophen"; and for
    the empty medication list the matcher returns no warning and has looked
    at no record. *)
Theorem keyword_index_exact :
  (∀ (my_drugs : list drug_item) (keyword : pystr),
     keyword ∈ my_drug_keywords my_drugs ↔
     ∃ d, d ∈ my_drugs ∧
          ((name d ≠ [] ∧ keyword = lower (name d)) ∨
           (lower (ingredient d) ≠ UNKNOWN_INGREDIENT ∧ keyword = lower (ingredient d))))
  ∧ (∀ s : pystr, plain_text s = true →
       lower s ≠ UNKNOWN_INGREDIENT ↔ s ≠ UNKNOWN_INGREDIENT)
  ∧ (∀ keyword : pystr,
       keyword ∈ my_drug_keywords [tylenol_en] ↔
       keyword = u "tylenol" ∨ keyword = u "acetaminophen")
  ∧ (∀ (order : list pystr) (records : list drug_info),
       check_contraindications_run order records [] = ([], [])).
Proof.
  split_and!.
  - intros my_drugs keyword. rewrite my_drug_keywords_spec. unfold contributes.
    by setoid_rewrite lower_nil_iff.
  - intros s Hs. by rewrite lower_unknown_iff.
  - intros keyword. rewrite my_drug_keywords_plain by reflexivity.
    rewrite (@my_drug_keywords_spec plain_python). split.
    + intros (d & ->%list_elem_of_singleton & [[_ ->] | [_ ->]]); [by left | by right].
    + intros [-> | ->]; exists tylenol_en; (split; [by left|]);
        [left | right]; by vm_compute.
  - done.
Qed.

(** C10. When an entry of the medication list has the empty string as its
    ingredient, the empty string is a keyword of the index, and the matcher
    gives a warning for every record whose lower-cased, stripped interaction
    text is not the sentinel, in the order of the records, whatever the text
    mentions. *)
Theorem empty_ingredient_warns_everywhere (order : list pystr)
    (records : list drug_info) (my_drugs : list drug_item) (d : drug_item) :
  d ∈ my_drugs →
  ingredient d = [] →
  iterates (my_drug_keywords my_drugs) order →
  [] ∈ my_drug_keywords my_drugs ∧
  Forall2 (warning_of (my_drug_keywords my_drugs) order)
    (filter (fun r => contra_info_lower r ≠ NO_INFO) records)
    (check_contraindications order records my_drugs).
Proof.
  intros Hd Hempty Horder.
  assert ([] ∈ my_drug_keywords my_drugs) as Hin.
  { apply my_drug_keywords_spec. exists d. split; [done|].
    right. by rewrite Hempty, lower_empty. }
  split; [done|].
  rewrite (list_filter_iff _ (emits (my_drug_keywords my_drugs))).
  - by apply check_contraindications_filter.
  - intros r. unfold emits. split; [|by intros [? _]].
    intros Hs. split; [done|]. exists []. by rewrite contains_nil.
Qed.

End MatcherTheorems.

Section MatcherWitnesses.
#[local] Existing Instance plain_python.

(** C1 at one order of the keyword set of 타이레놀. *)
Lemma ingredient_keyword_gets_composed_label_witness :
  iterates (my_drug_keywords [tylenol_ko]) [u "타이레놀"; u "아세트아미노펜"] ∧
  conflict_drug <$> check_contraindications [u "타이레놀"; u "아세트아미노펜"]
    [record_of (u "아스피린") (u "아세트아미노펜과 함께 복용하지 마십시오")] [tylenol_ko]
  = [u "등록된 약 (성분: 아세트아미노펜)"].
Proof.
  assert (iterates (my_drug_keywords [tylenol_ko]) [u "타이레놀"; u "아세트아미노펜"])
    as Horder.
  { vm_compute. apply perm_swap || reflexivity. }
  split; [exact Horder|].
  destruct (ingredient_keyword_gets_composed_label _ Horder) as [-> _].
  reflexivity.
Defined.


(** C10 at an entry without ingredient and two records. *)
Lemma empty_ingredient_warns_everywhere_witness :
  no_ingredient ∈ [no_ingredient] ∧ ingredient no_ingredient = [] ∧
  iterates (my_drug_keywords [no_ingredient]) [[]; u "mystery"] ∧
  [] ∈ my_drug_keywords [no_ingredient] ∧
  Forall2 (warning_of (my_drug_keywords [no_ingredient]) [[]; u "mystery"])
    (filter (fun r => contra_info_lower r ≠ NO_INFO)
       [record_of (u "A") (u "Take with water"); record_of (u "B") NO_INFO])
    (check_contraindications [[]; u "mystery"]
       [record_of (u "A") (u "Take with water"); record_of (u "B") NO_INFO]
       [no_ingredient]).
Proof.
  assert (iterates (my_drug_keywords [no_ingredient]) [[]; u "mystery"]) as Horder.
  { vm_compute. apply perm_swap || reflexivity. }
  split_and!; [by left | done | exact Horder | ..].
  all: apply (empty_ingredient_warns_everywhere [[]; u "mystery"]
                [record_of (u "A") (u "Take with water"); record_of (u "B") NO_INFO]
                [no_ingredient] no_ingredient (list_elem_of_here _ _) eq_refl Horder).
Defined.

End MatcherWitnesses.

Section HighlightTheorem.
Context `{World}.

(** C3, at two inputs on which the emphasis is misplaced. The position of
    the keyword is looked up in the lower-cased, stripped copy of the text
    and used on the original: a text that starts with a blank, and a text
    with the letter U+0130 (its lower case is two code points long) before
    the keyword, get the marker around other characters than the keyword.
    The second text is one the normaliser hands on as it is. The text
    "Avoid with Aspirin" is marked as the specification says. *)
Theorem highlight_is_misplaced_after_shift :
  info <$> check_contraindications [u "aspirin"]
    [record_of (u "X") (u " Avoid with Aspirin")] [aspirin_en]
  = [u " Avoid with<b> Aspiri</b>n"] ∧
  info <$> check_contraindications [u "aspirin"]
    [record_of (u "X") (u "İ Aspirin")] [aspirin_en]
  = [u "İ A<b>spirin</b>"] ∧
  safe_extract {[ u "intrcQesitm" := JStr (u "İ Aspirin") ]} (u "intrcQesitm")
  = u "İ Aspirin" ∧
  info <$> check_contraindications [u "aspirin"]
    [record_of (u "X") (u "Avoid with Aspirin")] [aspirin_en]
  = [u "Avoid with <b>Aspirin</b>"].
Proof.
  split_and!.
  - rewrite check_contraindications_plain by reflexivity. by vm_compute.
  - rewrite check_contraindications_plain by reflexivity. by vm_compute.
  - unfold safe_extract. rewrite lookup_singleton_eq. cbn [py_str].
    rewrite lower_table by reflexivity. by vm_compute.
  - rewrite check_contraindications_plain by reflexivity. by vm_compute.
Qed.

End HighlightTheorem.

(** ** Theorems about the normaliser *)

Section NormalizerTheorems.
Context `{World}.

(** C4, for an item that is a dict. A field whose raw value is absent, or
    whose string form is, in lower case, "none", "null" or the empty string
    (so for the raw values null, "null", "None", "NULL" and ""), is
    normalised to the sentinel; every other raw value is normalised to its
    string form with every "<p>" and then every "</p>" replaced by nothing
    and then stripped, so that no whitespace is left at either end; the five
    text fields of a record are normalised this way, and normalising an item
    that is a dict returns a record and raises nothing. *)
Theorem safe_extract_normalises (item : gmap pystr json) (key : pystr) :
  (item !! key = None → safe_extract item key = NO_INFO) ∧
  (∀ value, item !! key = Some value →
     lower (py_str value) ∈ [u "none"; u "null"; []] →
     safe_extract item key = NO_INFO) ∧
  (∀ value, item !! key = Some value →
     value ∈ [JNull; JStr (u "null"); JStr (u "None"); JStr (u "NULL"); JStr []] →
     safe_extract item key = NO_INFO) ∧
  (∀ value, item !! key = Some value →
     lower (py_str value) ∉ [u "none"; u "null"; []] →
     safe_extract item key
     = strip (replace (u "</p>") [] (replace (u "<p>") [] (py_str value))) ∧
     lstrip (safe_extract item key) = safe_extract item key ∧
     rstrip (safe_extract item key) = safe_extract item key) ∧
  (∀ search_term,
     effect (extract_drug_info item search_term) = safe_extract item (u "efcyQesitm") ∧
     dosage (extract_drug_info item search_term) = safe_extract item (u "useMethodQesitm") ∧
     precaution (extract_drug_info item search_term) = safe_extract item (u "atpnWarnQesitm") ∧
     interaction (extract_drug_info item search_term) = safe_extract item (u "intrcQesitm") ∧
     ingredient_text (extract_drug_info item search_term) = safe_extract item (u "mainItemIngr") ∧
     call_extract_drug_info (JObj item) search_term = Ret (extract_drug_info item search_term)).
Proof.
  assert (∀ value, item !! key = Some value →
            lower (py_str value) ∈ [u "none"; u "null"; []] →
            safe_extract item key = NO_INFO) as Hsentinel.
  { intros value Hvalue Hin. unfold safe_extract. rewrite Hvalue.
    rewrite bool_decide_eq_true_2 by done. by destruct value. }
  split_and!.
  - intros Habsent. unfold safe_extract. by rewrite Habsent.
  - exact Hsentinel.
  - intros value Hvalue Hin. apply (Hsentinel value Hvalue).
    repeat (apply elem_of_cons in Hin as [->|Hin]); cbn [py_str];
      try (rewrite lower_table by reflexivity; vm_compute;
           repeat first [apply list_elem_of_here | apply list_elem_of_further]).
    by apply elem_of_nil in Hin.
  - intros value Hvalue Hnot. unfold safe_extract. rewrite Hvalue.
    rewrite bool_decide_eq_false_2 by done.
    destruct value; try (split; [done | apply strip_trimmed]).
    exfalso. apply Hnot. cbn [py_str]. rewrite lower_table by reflexivity.
    vm_compute. apply list_elem_of_here.
  - done.
Qed.

(** X14. A raw value that is a string of whitespace only, and not the empty
    string, is normalised to the empty string and not to the sentinel: only
    the raw value is compared with the words for a missing value, not what is
    left of it after stripping. *)
Theorem blank_value_becomes_empty_text (item : gmap pystr json) (key text : pystr) :
  item !! key = Some (JStr text) →
  text ≠ [] →
  forallb isspace text = true →
  safe_extract item key = [] ∧ safe_extract item key ≠ NO_INFO.
Proof.
  intros Hitem Hne Hblank.
  assert (safe_extract item key = []) as Hresult; [|by rewrite Hresult].
  assert (lower text = text) as Hlower by (by apply lower_blank).
  assert (60 ∉ text) as Hno.
  { intros Hin%list_elem_of_In.
    by pose proof (proj1 (forallb_forall _ _) Hblank _ Hin). }
  assert (replace (u "<p>") [] text = text) as Hopen
    by apply (replace_absent 60 (u "p>")), Hno.
  assert (replace (u "</p>") [] text = text) as Hclose
    by apply (replace_absent 60 (u "/p>")), Hno.
  unfold safe_extract. rewrite Hitem.
  change (py_str (JStr text)) with text. rewrite Hlower.
  rewrite bool_decide_eq_false_2.
  - rewrite Hopen, Hclose. unfold strip. by rewrite lstrip_blank.
  - intros Hin. repeat (apply elem_of_cons in Hin as [Hin|Hin]); try done.
    + subst text. by vm_compute in Hblank.
    + subst text. by vm_compute in Hblank.
    + by apply elem_of_nil in Hin.
Qed.

End NormalizerTheorems.

(** C4 at a text between paragraph tags. *)
Lemma safe_extract_normalises_witness :
  ({[ u "intrcQesitm" := JStr (u "<p> Avoid with Aspirin </p>") ]} : gmap pystr json)
    !! u "intrcQesitm" = Some (JStr (u "<p> Avoid with Aspirin </p>")) ∧
  @safe_extract (offline None)
    {[ u "intrcQesitm" := JStr (u "<p> Avoid with Aspirin </p>") ]} (u "intrcQesitm")
  = u "Avoid with Aspirin".
Proof.
  split; [by vm_compute|].
  destruct (@safe_extract_normalises (offline None)
              {[ u "intrcQesitm" := JStr (u "<p> Avoid with Aspirin </p>") ]}
              (u "intrcQesitm")) as (_ & _ & _ & Hother & _).
  destruct (Hother (JStr (u "<p> Avoid with Aspirin </p>"))) as [-> _].
  - by vm_compute.
  - vm_compute. intros Hin. repeat (apply elem_of_cons in Hin as [Hin|Hin]; [done|]).
    by apply elem_of_nil in Hin.
  - by vm_compute.
Defined.

(** C4, as the specification words it, for every raw item: an item of the
    response that is no dict (a null, a string, a number, a list) has no
    method [get], and normalising it raises [AttributeError]. *)
Lemma item_that_is_no_dict_raises :
  @call_extract_drug_info (offline None) JNull (u "아스피린") = Exc AttributeError ∧
  @call_extract_drug_info (offline None) (JStr (u "아스피린정")) (u "아스피린")
  = Exc AttributeError ∧
  (∀ (W : World) (item : json) (search_term : pystr),
     (∀ d, item ≠ JObj d) →
     @call_extract_drug_info W item search_term = Exc AttributeError).
Proof.
  split_and!; [done | done |].
  intros W item search_term Hno. destruct item; try done. by destruct (Hno d).
Qed.

(** X14 at a value of two spaces. *)
Lemma blank_value_becomes_empty_text_witness :
  ({[ u "intrcQesitm" := JStr (u "  ") ]} : gmap pystr json) !! u "intrcQesitm"
  = Some (JStr (u "  ")) ∧
  u "  " ≠ [] ∧
  forallb isspace (u "  ") = true ∧
  @safe_extract (offline None) {[ u "intrcQesitm" := JStr (u "  ") ]} (u "intrcQesitm") = [] ∧
  @safe_extract (offline None) {[ u "intrcQesitm" := JStr (u "  ") ]} (u "intrcQesitm")
  ≠ NO_INFO.
Proof.
  assert (({[ u "intrcQesitm" := JStr (u "  ") ]} : gmap pystr json) !! u "intrcQesitm"
          = Some (JStr (u "  "))) as Hitem by (by vm_compute).
  assert (u "  " ≠ []) as Hne by (by vm_compute).
  assert (forallb isspace (u "  ") = true) as Hblank by (by vm_compute).
  split; [exact Hitem|]. split; [exact Hne|]. split; [exact Hblank|].
  exact (@blank_value_becomes_empty_text (offline None) _ _ _ Hitem Hne Hblank).
Defined.

(** ** Theorems about the resolver *)

Section ResolverTheorems.
Context `{World}.

(** The steps of [perform_search] after the request send nothing. *)
Lemma quiet_ret {A : Type} (a : A) : quiet (mret a).
Proof. by exists (Ret a). Qed.

Lemma quiet_lift {A : Type} (r : res A) : quiet (lift r).
Proof. by exists r. Qed.

Lemma quiet_bind {A B : Type} (m : io A) (k : A → io B) :
  quiet m → (∀ a, quiet (k a)) → quiet (m ≫= k).
Proof.
  intros [[a|e] Hm] Hk.
  - destruct (Hk a) as [r Hr]. exists r. intros log.
    unfold mbind, io_bind. by rewrite Hm, Hr.
  - exists (Exc e). intros log. unfold mbind, io_bind. by rewrite Hm.
Qed.

(** Walks through a computation made of these steps and of case
    distinctions. *)
Ltac quiet_steps :=
  repeat first
    [ apply quiet_ret
    | apply quiet_lift
    | apply quiet_bind; [|intros ?]
    | case_match ].

(** A guarded request sends exactly one request and returns normally. *)
Lemma try_request_run {A : Type} (p : params) (k : Z * option json → io (option A)) :
  (∀ response, quiet (k response)) →
  ∃ r, ∀ log, try_except (requests_get p ≫= k) (fun _ => mret None) log
              = (Ret r, log ++ [p]).
Proof.
  intros Hk. unfold try_except, mbind, io_bind, requests_get.
  destruct (service p) as [|status_code body].
  - by exists None.
  - destruct (Hk (status_code, body)) as [[r|e] Hr].
    + exists r. intros log. by rewrite Hr.
    + exists None. intros log. by rewrite Hr.
Qed.

(** [perform_search] sends its one request and returns a value. *)
Lemma perform_search_run (p : params) (drug_name : pystr) (multiple : bool)
    (log : list params) :
  perform_search p drug_name multiple log
  = (Ret (stage_result p drug_name multiple), log ++ [p]).
Proof.
  unfold stage_result, perform_search.
  edestruct (try_request_run (A:=list drug_info) p) as [r Hr]; last first.
  - rewrite (Hr log), (Hr []). done.
  - intros response. quiet_steps.
Qed.

(** The records of a list of items, when every item is a dict. *)
Lemma res_map_extract (drug_name : pystr) (elements : list json) (l : list drug_info) :
  res_map (fun item => call_extract_drug_info item drug_name) elements = Ret l →
  ∃ dicts, elements = JObj <$> dicts ∧
           l = (fun d => extract_drug_info d drug_name) <$> dicts.
Proof.
  revert l. induction elements as [|item elements IH]; intros l; simpl.
  - intros [= <-]. by exists [].
  - destruct item; simpl; try done.
    unfold mbind, res_bind.
    destruct (res_map _ elements) as [l'|] eqn:Hl'; [|done].
    intros [= <-]. destruct (IH l' eq_refl) as (dicts & -> & ->).
    by exists (d :: dicts).
Qed.


(** A request that yields records: the response is no client or server
    error, its body is a dict with an accepted result code, and the records
    are the normalised items of [body.items], in their order. *)
Lemma stage_result_Some (p : params) (drug_name : pystr) (l : list drug_info) :
  stage_result p drug_name true = Some l →
  ∃ status_code search_data header body dicts,
    service p = Response status_code (Some (JObj search_data)) ∧
    ¬ (400 ≤ status_code < 600)%Z ∧
    default (JObj ∅) (search_data !! u "header") = JObj header ∧
    accepted_code (default JNull (header !! u "resultCode")) = true ∧
    search_data !! u "body" = Some (JObj body) ∧
    body !! u "items" = Some (JArr (JObj <$> dicts)) ∧
    dicts ≠ [] ∧
    l = (fun d => extract_drug_info d drug_name) <$> dicts.
Proof.
  unfold stage_result, perform_search, try_except, mbind, io_bind, requests_get, lift,
    mret, io_ret.
  destruct (service p) as [|status_code body]; [done|]. simpl.
  unfold raise_for_status.
  destruct ((400 <=? status_code)%Z && (status_code <? 600)%Z) eqn:Hstatus; [done|].
  destruct body as [search_data|]; [|done].
  destruct search_data as [| | | | |search_data]; try done. simpl.
  destruct (default (JObj ∅) (search_data !! u "header")) as [| | | | |header] eqn:Hheader;
    try done. simpl.
  destruct (accepted_code (default JNull (header !! u "resultCode"))) eqn:Hcode; [|done].
  simpl. case_bool_decide as Hbody; [|done]. simpl.
  destruct (search_data !! u "body") as [body|] eqn:Hb; [|by destruct Hbody]. simpl.
  destruct body as [| | | | |body]; simpl; try done.
  - destruct (contains (u "items") s); done.
  - destruct (existsb _ l0); done.
  - case_bool_decide as Hitems; [|done]. simpl.
    destruct (body !! u "items") as [items|] eqn:Hi; [|by destruct Hitems]. simpl.
    destruct (truthy items) eqn:Htruthy; [|done]. simpl.
    destruct items as [| | |chars|items|keyed]; simpl; try done.
    { destruct chars; [by vm_compute in Htruthy | done]. }
    2:{ destruct (map_to_list keyed) as [|[key value] rest] eqn:Hkeys; simpl; [|done].
        apply map_to_list_empty_iff in Hkeys as ->. by vm_compute in Htruthy. }
    destruct (res_map _ items) as [result|] eqn:Hmap; simpl; [|done].
    intros [= <-].
    apply res_map_extract in Hmap as (dicts & -> & ->).
    exists status_code, search_data, header, body, dicts. split_and!; try done.
    + intros [H1%Z.leb_le H2%Z.ltb_lt]. by rewrite H1, H2 in Hstatus.
    + intros ->. by vm_compute in Htruthy.
Qed.



(** The lines of a stage are printed, or the first that cannot be encoded
    raises. *)
Lemma print_results_run (i : nat) (l : list drug_info) :
  print_results i l
  = if forallb printable_record l then Ret tt else Exc UnicodeEncodeError.
Proof.
  revert i. induction l as [|r l IH]; intros i; [done|].
  cbn [print_results forallb]. rewrite !print_run, !printable_app.
  rewrite printable_str_int.
  repeat match goal with
  | |- context [printable (u ?s)] => rewrite (printable_plain (u s)) by reflexivity
  end.
  unfold printable_record at 1. rewrite IH.
  destruct (printable (py_str (item_name r))); [|done].
  destruct (printable (interaction r)); [|done].
  simpl. by destruct (forallb printable_record l).
Qed.

Lemma print_stage_run (stage filter : pystr) (l : list drug_info) :
  printable stage = true → printable filter = true →
  print_stage stage filter l
  = if forallb printable_record l then Ret tt else Exc UnicodeEncodeError.
Proof.
  intros Hstage Hfilter. unfold print_stage.
  rewrite !print_run, !printable_app, print_results_run.
  rewrite printable_str_int, Hstage, Hfilter.
  rewrite (printable_plain [10]) by reflexivity.
  repeat match goal with
  | |- context [printable (u ?s)] => rewrite (printable_plain (u s)) by reflexivity
  end.
  simpl. by destruct (forallb printable_record l).
Qed.

(** The resolver with a credential and a name that can be quoted: the
    result and the requests sent. *)
Lemma search_drug_info_run (key encoded drug_name : pystr) (log : list params) :
  SERVICE_KEY = Some key → key ≠ [] → quote drug_name = Some encoded →
  search_drug_info drug_name log
  = if found (stage_result (params_item_name key encoded) drug_name true)
    then (reported (stage_result (params_item_name key encoded) drug_name true),
          log ++ [params_item_name key encoded])
    else if found (stage_result (params_ingr_name key encoded) drug_name true)
    then (reported (stage_result (params_ingr_name key encoded) drug_name true),
          log ++ [params_item_name key encoded; params_ingr_name key encoded])
    else (Ret None,
          log ++ [params_item_name key encoded; params_ingr_name key encoded]).
Proof.
  intros Hkey Hne Hquote. unfold search_drug_info, urllib_parse_quote. rewrite Hkey, Hquote.
  destruct key as [|c key]; [done|].
  unfold mbind at 1, io_bind at 1, lift at 1.
  unfold mbind at 1, io_bind at 1. rewrite perform_search_run.
  destruct (found (stage_result (params_item_name _ _) _ _)).
  - unfold mbind, io_bind, lift, reported.
    rewrite print_stage_run by (by apply printable_plain).
    by destruct (forallb printable_record _).
  - unfold mbind at 1, io_bind at 1. rewrite perform_search_run, <- app_assoc.
    destruct (found (stage_result (params_ingr_name _ _) _ _)); [|done].
    unfold mbind, io_bind, lift, reported.
    rewrite print_stage_run by (by apply printable_plain).
    by destruct (forallb printable_record _).
Qed.

(** The resolver without a credential. *)
Lemma search_drug_info_no_key (drug_name : pystr) (log : list params) :
  SERVICE_KEY = None ∨ SERVICE_KEY = Some [] →
  search_drug_info drug_name log = (Ret None, log).
Proof.
  unfold search_drug_info.
  intros [-> | ->]; unfold mbind, io_bind, lift;
    by rewrite print_run, printable_plain.
Qed.

(** The resolver with a credential and a name that cannot be quoted. *)
Lemma search_drug_info_no_quote (key drug_name : pystr) (log : list params) :
  SERVICE_KEY = Some key → key ≠ [] → quote drug_name = None →
  search_drug_info drug_name log = (Exc UnicodeEncodeError, log).
Proof.
  intros Hkey Hne Hquote. unfold search_drug_info, urllib_parse_quote. rewrite Hkey, Hquote.
  by destruct key.
Qed.

(** The cases of a lookup: no request at all, or the two stages. *)
Lemma search_drug_info_cases (drug_name : pystr) (log : list params) :
  search_drug_info drug_name log = (Ret None, log) ∨
  (search_drug_info drug_name log = (Exc UnicodeEncodeError, log)
   ∧ quote drug_name = None
   ∧ ∃ key, SERVICE_KEY = Some key ∧ key ≠ []) ∨
  ∃ key encoded,
    let first := stage_result (params_item_name key encoded) drug_name true in
    let second := stage_result (params_ingr_name key encoded) drug_name true in
    SERVICE_KEY = Some key ∧ key ≠ [] ∧ quote drug_name = Some encoded ∧
    ((found first = true ∧
      search_drug_info drug_name log
      = (reported first, log ++ [params_item_name key encoded])) ∨
     (found first = false ∧ found second = true ∧
      search_drug_info drug_name log
      = (reported second,
         log ++ [params_item_name key encoded; params_ingr_name key encoded])) ∨
     (found first = false ∧ found second = false ∧
      search_drug_info drug_name log
      = (Ret None,
         log ++ [params_item_name key encoded; params_ingr_name key encoded]))).
Proof.
  destruct SERVICE_KEY as [[|c key]|] eqn:Hkey.
  - left. apply search_drug_info_no_key. by right.
  - destruct (quote drug_name) as [encoded|] eqn:Hquote.
    + right. right. exists (c :: key), encoded. cbv zeta.
      rewrite (search_drug_info_run (c :: key) encoded) by done.
      split_and!; try done.
      destruct (found (stage_result (params_item_name _ _) _ _)); [by left | right].
      destruct (found (stage_result (params_ingr_name _ _) _ _)); [by left | by right].
    + right. left. split_and!; [|done|by exists (c :: key)].
      by apply (search_drug_info_no_quote (c :: key)).
  - left. apply search_drug_info_no_key. by left.
Qed.

Lemma found_cons (r : option (list drug_info)) :
  found r = true → ∃ x l, r = Some (x :: l).
Proof. destruct r as [[|x l]|]; try done. by exists x, l. Qed.

(** How a stage that has found records ends. *)
Lemma reported_cases (r : option (list drug_info)) :
  (forallb printable_record (default [] r) = true ∧ reported r = Ret r) ∨
  (forallb printable_record (default [] r) = false ∧ reported r = Exc UnicodeEncodeError).
Proof. unfold reported. destruct (forallb printable_record _); [by left | by right]. Qed.

(** C5. With a credential, the first request filters by trade name
    ([itemName]) and a request that filters by ingredient ([ingrName]) is
    sent only when the first one yields no record; when the first one yields
    a record, it is the only request sent. Both requests ask for 3 rows and
    carry the name as [urllib.parse.quote] encodes it. The records of a
    request are the normalised items of the response, in the order of the
    response, and an item without a name gets the name that was searched.
    The stage that has found records prints them before it returns them: the
    lookup ends with the records when every line can be encoded for the
    standard output, and in [UnicodeEncodeError] otherwise. *)
Theorem resolver_two_stages (key encoded drug_name : pystr) (log : list params) :
  SERVICE_KEY = Some key → key ≠ [] → quote drug_name = Some encoded →
  (params_item_name key encoded !! u "itemName" = Some encoded ∧
   params_item_name key encoded !! u "ingrName" = None ∧
   params_item_name key encoded !! u "numOfRows" = Some (u "3") ∧
   params_ingr_name key encoded !! u "ingrName" = Some encoded ∧
   params_ingr_name key encoded !! u "itemName" = None ∧
   params_ingr_name key encoded !! u "numOfRows" = Some (u "3")) ∧
  (found (stage_result (params_item_name key encoded) drug_name true) = true →
   search_drug_info drug_name log
   = (reported (stage_result (params_item_name key encoded) drug_name true),
      log ++ [params_item_name key encoded])) ∧
  (found (stage_result (params_item_name key encoded) drug_name true) = false →
   (search_drug_info drug_name log).2
   = log ++ [params_item_name key encoded; params_ingr_name key encoded] ∧
   (search_drug_info drug_name log).1
   = if found (stage_result (params_ingr_name key encoded) drug_name true)
     then reported (stage_result (params_ingr_name key encoded) drug_name true)
     else Ret None) ∧
  (∀ r, (forallb printable_record (default [] r) = true → reported r = Ret r) ∧
        (forallb printable_record (default [] r) = false →
         reported r = Exc UnicodeEncodeError)) ∧
  (∀ p l, stage_result p drug_name true = Some l →
     ∃ status_code search_data body dicts,
       service p = Response status_code (Some (JObj search_data)) ∧
       search_data !! u "body" = Some (JObj body) ∧
       body !! u "items" = Some (JArr (JObj <$> dicts)) ∧
       l = (fun d => extract_drug_info d drug_name) <$> dicts ∧
       Forall (fun d => item_name (extract_drug_info d drug_name)
                        = default (JStr drug_name) (d !! u "itemName")) dicts).
Proof.
  intros Hkey Hne Hquote. split_and!.
  1-6: by vm_compute.
  - intros Hfound. by rewrite (search_drug_info_run key encoded), Hfound.
  - intros Hfound. rewrite (search_drug_info_run key encoded), Hfound by done.
    by destruct (found (stage_result (params_ingr_name _ _) _ _)).
  - intros r. unfold reported. split; by intros ->.
  - intros p l Hl.
    apply stage_result_Some in Hl
      as (status_code & search_data & header & body & dicts
          & Hservice & _ & _ & _ & Hbody & Hitems & _ & ->).
    exists status_code, search_data, body, dicts. split_and!; try done.
    by apply Forall_forall.
Qed.


(** X5. A response whose body is valid JSON of another shape than a result
    (no dict at the top, a header or a body that is no dict, items that are
    no list, an item that is no dict) yields "not found", whatever its status
    and result code: the exception raised on the way is caught. One item
    that is no dict discards the records of all the items. *)
Theorem malformed_response_is_not_found (p : params) (drug_name : pystr)
    (status_code : Z) (search_data : json) :
  service p = Response status_code (Some search_data) →
  malformed search_data →
  stage_result p drug_name true = None.
Proof.
  intros Hservice Hbad.
  destruct (stage_result p drug_name true) as [l|] eqn:Hstage; [|done].
  exfalso.
  apply stage_result_Some in Hstage
    as (status_code' & d & header & body & dicts
        & Hservice' & _ & Hheader & _ & Hbody & Hitems & _ & _).
  rewrite Hservice in Hservice'. simplify_eq.
  inversion Hbad as
    [ ? Htop | ? bad Hh Hno | ? bad Hb Hno | ? b bad Hb Hi Hno
      | ? b its item Hb Hi Hin Hno ]; simplify_eq.
  - by apply (Htop d).
  - rewrite Hh in Hheader. simpl in Hheader. by apply (Hno header).
  - by apply (Hno body).
  - by apply (Hno (JObj <$> dicts)).
  - apply list_elem_of_fmap in Hin as (i & -> & _). by apply (Hno i).
Qed.

(** The single-result mode on a response that yields records. *)
Lemma stage_result_single (p : params) (drug_name : pystr) (l : list drug_info) :
  stage_result p drug_name true = Some l →
  stage_result p drug_name false = Some (take 1 l).
Proof.
  intros (status_code & search_data & header & body & dicts
          & Hservice & Hstatus & Hheader & Hcode & Hbody & Hitems & Hdicts & ->)
    %stage_result_Some.
  destruct dicts as [|d dicts]; [done|].
  unfold stage_result, perform_search, try_except, mbind, io_bind, requests_get, lift,
    mret, io_ret.
  rewrite Hservice. simpl. unfold raise_for_status.
  destruct ((400 <=? status_code)%Z && (status_code <? 600)%Z) eqn:Hs.
  { exfalso. apply Hstatus. apply andb_true_iff in Hs as [H1%Z.leb_le H2%Z.ltb_lt]. lia. }
  simpl. rewrite Hheader. simpl. rewrite Hcode. simpl.
  rewrite Hbody. simpl. rewrite ?bool_decide_eq_true_2 by eauto. simpl.
  rewrite Hitems. simpl. rewrite ?bool_decide_eq_true_2 by eauto. simpl.
  rewrite ?bool_decide_eq_true_2 by done. simpl. done.
Qed.

(** What the single-result mode returns, when it returns records. *)
Lemma stage_result_single_inv (p : params) (drug_name : pystr) (l : list drug_info) :
  stage_result p drug_name false = Some l →
  ∃ status_code search_data body d rest,
    service p = Response status_code (Some (JObj search_data)) ∧
    search_data !! u "body" = Some (JObj body) ∧
    body !! u "items" = Some (JArr (JObj d :: rest)) ∧
    l = [extract_drug_info d drug_name].
Proof.
  unfold stage_result, perform_search, try_except, mbind, io_bind, requests_get, lift,
    mret, io_ret.
  destruct (service p) as [|status_code body]; [done|]. simpl.
  destruct (raise_for_status status_code); [|done]. simpl.
  destruct body as [search_data|]; [|done].
  destruct search_data as [| | | | |search_data]; try done. simpl.
  destruct (default (JObj ∅) (search_data !! u "header")) as [| | | | |header];
    try done. simpl.
  destruct (accepted_code (default JNull (header !! u "resultCode"))); [|done].
  simpl. case_bool_decide as Hbody; [|done]. simpl.
  destruct (search_data !! u "body") as [body|] eqn:Hb; [|by destruct Hbody]. simpl.
  destruct body as [| | | | |body]; simpl; try done.
  - destruct (contains (u "items") s); done.
  - destruct (existsb _ l0); done.
  - case_bool_decide as Hitems; [|done]. simpl.
    destruct (body !! u "items") as [items|] eqn:Hi; [|by destruct Hitems]. simpl.
    destruct (truthy items); [|done]. simpl.
    destruct items as [| | |chars|items|keyed]; simpl; try done.
    { by destruct chars. }
    destruct items as [|item rest]; [done|]. simpl.
    destruct item as [| | | | |d]; simpl; try done.
    intros [= <-]. by exists status_code, search_data, body, d, rest.
Qed.

(** X6. The single-result mode of [perform_search] returns one record, the
    normalised first item of the response; whenever the mode for several
    results yields records, the single-result mode yields the first of
    them. *)
Theorem single_result_is_the_first (p : params) (drug_name : pystr) :
  (∀ l, stage_result p drug_name true = Some l →
        stage_result p drug_name false = Some (take 1 l)) ∧
  (∀ l, stage_result p drug_name false = Some l →
        ∃ status_code search_data body d rest,
          service p = Response status_code (Some (JObj search_data)) ∧
          search_data !! u "body" = Some (JObj body) ∧
          body !! u "items" = Some (JArr (JObj d :: rest)) ∧
          l = [extract_drug_info d drug_name]).
Proof.
  split; [apply stage_result_single | apply stage_result_single_inv].
Qed.

(** How a lookup ends: in "not found", in a list that is not empty, or in
    the one exception. *)
Lemma search_drug_info_result (drug_name : pystr) (log : list params) :
  ∃ r sent,
    search_drug_info drug_name log = (r, log ++ sent) ∧
    (r = Ret None ∨ (∃ x l, r = Ret (Some (x :: l))) ∨ r = Exc UnicodeEncodeError).
Proof.
  destruct (search_drug_info_cases drug_name log)
    as [Hnone | [(Hrun & _) | (key & encoded & _ & _ & _ & Hrun)]]; cbv zeta in *.
  - exists (Ret None), []. rewrite app_nil_r. auto.
  - exists (Exc UnicodeEncodeError), []. rewrite app_nil_r. auto.
  - destruct Hrun as [[Hfound Hrun] | [(_ & Hfound & Hrun) | (_ & _ & Hrun)]].
    3:{ eexists _, _. split; [exact Hrun | by left]. }
    all: eexists _, _; (split; [exact Hrun|]).
    all: apply found_cons in Hfound as (x & l & ->).
    all: destruct (reported_cases (Some (x :: l))) as [[_ ->] | [_ ->]];
      [right; left; by exists x, l | by right; right].
Qed.

(** X7. A lookup keeps the requests logged before it and sends at most two.
    It ends in one of three ways: it returns "not found"; it returns a list
    of at least one record, after a request, and has printed the lines of
    every record of the list; or it raises [UnicodeEncodeError]. It never
    returns an empty list and raises no other exception. *)
Theorem lookup_returns_records_or_nothing (drug_name : pystr) (log : list params) :
  ∃ r sent,
    search_drug_info drug_name log = (r, log ++ sent) ∧
    (length sent ≤ 2)%nat ∧
    (r = Ret None ∨
     (∃ x l, r = Ret (Some (x :: l)) ∧ sent ≠ [] ∧
             forallb printable_record (x :: l) = true) ∨
     r = Exc UnicodeEncodeError).
Proof.
  destruct (search_drug_info_cases drug_name log)
    as [Hnone | [(Hrun & _) | (key & encoded & _ & _ & _ & Hrun)]]; cbv zeta in *.
  - exists (Ret None), []. rewrite app_nil_r. split_and!; auto.
  - exists (Exc UnicodeEncodeError), []. rewrite app_nil_r. split_and!; auto.
  - destruct Hrun as [[Hfound Hrun] | [(_ & Hfound & Hrun) | (_ & _ & Hrun)]].
    3:{ eexists _, _. split; [exact Hrun|]. split; [simpl; lia | by left]. }
    all: eexists _, _; (split; [exact Hrun|]); split; [simpl; lia|].
    all: apply found_cons in Hfound as (x & l & ->).
    all: destruct (reported_cases (Some (x :: l))) as [[Hprint ->] | [_ ->]];
      [right; left; by exists x, l | by right; right].
Qed.

End ResolverTheorems.

(** C5 at a service that answers the request by trade name: one request is
    sent. *)
Lemma resolver_two_stages_witness :
  @SERVICE_KEY (stub (Some (u "key")) (Response 200 (Some aspirin_envelope)) Unreachable)
  = Some (u "key") ∧
  u "key" ≠ [] ∧
  @quote (stub (Some (u "key")) (Response 200 (Some aspirin_envelope)) Unreachable)
    (u "아스피린") = Some (u "아스피린") ∧
  @search_drug_info (stub (Some (u "key")) (Response 200 (Some aspirin_envelope)) Unreachable)
    (u "아스피린") []
  = (Ret (Some [record_of (u "아스피린정") (u "아세트아미노펜과 함께 복용하지 마십시오")]),
     [ {[ u "serviceKey" := u "key"; u "itemName" := u "아스피린";
          u "type" := u "json"; u "numOfRows" := u "3" ]} ]).
Proof.
  split_and!; [done | done | done |].
  destruct (@resolver_two_stages
              (stub (Some (u "key")) (Response 200 (Some aspirin_envelope)) Unreachable)
              (u "key") (u "아스피린") (u "아스피린") [] eq_refl) as (_ & Hfirst & _);
    [done | done |].
  rewrite Hfirst.
  - reflexivity.
  - by vm_compute.
Defined.



(** X5 at a response with the accepted result code and two items, of which
    the second is null: the record of the first item is lost as well. *)
Lemma malformed_response_is_not_found_witness :
  @service
    (stub (Some (u "key"))
       (Response 200 (Some (JObj {[
          u "header" := JObj {[ u "resultCode" := JStr (u "00") ]};
          u "body" := JObj {[ u "items" := JArr [JObj aspirin_item; JNull] ]} ]})))
       Unreachable)
    {[ u "itemName" := u "아스피린" ]}
  = Response 200 (Some (JObj {[
      u "header" := JObj {[ u "resultCode" := JStr (u "00") ]};
      u "body" := JObj {[ u "items" := JArr [JObj aspirin_item; JNull] ]} ]})) ∧
  malformed (JObj {[
      u "header" := JObj {[ u "resultCode" := JStr (u "00") ]};
      u "body" := JObj {[ u "items" := JArr [JObj aspirin_item; JNull] ]} ]}) ∧
  @stage_result
    (stub (Some (u "key"))
       (Response 200 (Some (JObj {[
          u "header" := JObj {[ u "resultCode" := JStr (u "00") ]};
          u "body" := JObj {[ u "items" := JArr [JObj aspirin_item; JNull] ]} ]})))
       Unreachable)
    {[ u "itemName" := u "아스피린" ]} (u "아스피린") true
  = None.
Proof.
  assert (malformed (JObj {[
      u "header" := JObj {[ u "resultCode" := JStr (u "00") ]};
      u "body" := JObj {[ u "items" := JArr [JObj aspirin_item; JNull] ]} ]})) as Hbad.
  { apply (malformed_item _ {[ u "items" := JArr [JObj aspirin_item; JNull] ]}
             [JObj aspirin_item; JNull] JNull).
    - by vm_compute.
    - by vm_compute.
    - apply list_elem_of_further, list_elem_of_here.
    - done. }
  split; [by vm_compute|]. split; [exact Hbad|].
  eapply malformed_response_is_not_found; [|exact Hbad]. reflexivity.
Defined.

(** ** Further properties of the matcher *)

Section MatcherProperties.
Context `{Python}.

Lemma filter_sublist_impl {A : Type} (P Q : A → Prop)
    `{∀ x, Decision (P x)} `{∀ x, Decision (Q x)} (l : list A) :
  (∀ x, P x → Q x) → filter P l `sublist_of` filter Q l.
Proof.
  intros Himpl. induction l as [|x l IH]; [done|].
  rewrite !filter_cons. destruct (decide (P x)) as [HP|HP].
  - rewrite decide_True by auto. by apply sublist_skip.
  - destruct (decide (Q x)); [by apply sublist_cons | done].
Qed.

Lemma warning_of_names (keywords : gset pystr) (order : list pystr)
    (records : list drug_info) (warnings : list warning) :
  Forall2 (warning_of keywords order) records warnings →
  flagged warnings = names records.
Proof.
  unfold flagged, names.
  induction 1 as [|r w rs ws (keyword & _ & _ & ->) _ IH]; [done|].
  rewrite !fmap_cons. by f_equal.
Qed.

(** The names on the warnings are the names of the records that call for a
    warning. *)
Lemma flagged_filter (order : list pystr) (records : list drug_info)
    (my_drugs : list drug_item) :
  iterates (my_drug_keywords my_drugs) order →
  flagged (check_contraindications order records my_drugs)
  = names (filter (emits (my_drug_keywords my_drugs)) records).
Proof.
  intros Horder.
  apply (warning_of_names (my_drug_keywords my_drugs) order).
  by apply check_contraindications_filter.
Qed.

(** X1. Which records get a warning does not depend on the order in which
    Python walks the keyword set: two walks of the same set give warnings
    about the same records, in the same order and number. Only the keyword
    that a warning shows may differ. *)
Theorem flagged_records_independent_of_order (order1 order2 : list pystr)
    (records : list drug_info) (my_drugs : list drug_item) :
  iterates (my_drug_keywords my_drugs) order1 →
  iterates (my_drug_keywords my_drugs) order2 →
  flagged (check_contraindications order1 records my_drugs)
  = flagged (check_contraindications order2 records my_drugs)
  ∧ length (check_contraindications order1 records my_drugs)
    = length (check_contraindications order2 records my_drugs).
Proof.
  intros H1 H2.
  assert (flagged (check_contraindications order1 records my_drugs)
          = flagged (check_contraindications order2 records my_drugs)) as Heq.
  { by rewrite !flagged_filter. }
  split; [done|].
  apply (f_equal length) in Heq. unfold flagged in Heq.
  by rewrite !length_fmap in Heq.
Qed.

(** X2. Registering more medications never takes a warning away: the records
    flagged for a medication list are, in order, among the records flagged
    for the list with further entries. *)
Theorem more_medications_keep_warnings (order1 order2 : list pystr)
    (records : list drug_info) (my_drugs more : list drug_item) :
  iterates (my_drug_keywords my_drugs) order1 →
  iterates (my_drug_keywords (my_drugs ++ more)) order2 →
  flagged (check_contraindications order1 records my_drugs)
    `sublist_of` flagged (check_contraindications order2 records (my_drugs ++ more)).
Proof.
  intros H1 H2. rewrite !flagged_filter by done.
  unfold names. apply fmap_sublist. apply filter_sublist_impl.
  intros r [Hs (keyword & Hin & Hc)]. split; [done|].
  exists keyword. split; [|done].
  apply my_drug_keywords_spec in Hin as (d & Hd & Hcontr).
  apply my_drug_keywords_spec. exists d. split; [|done].
  apply elem_of_app. by left.
Qed.

(** A warning of the result comes from a record of the list and from the
    first keyword of the walk that occurs in its text. *)
Lemma elem_of_check_contraindications (order : list pystr) (records : list drug_info)
    (my_drugs : list drug_item) (w : warning) :
  w ∈ check_contraindications order records my_drugs →
  ∃ r keyword,
    r ∈ records ∧
    contra_info_lower r ≠ NO_INFO ∧
    first_keyword order (contra_info_lower r) = Some keyword ∧
    w = make_warning r keyword.
Proof.
  unfold check_contraindications. destruct my_drugs as [|d my_drugs].
  - intros Hin. by apply elem_of_nil in Hin.
  - rewrite check_contraindications_run_cons. simpl.
    intros (r & Hr & Hw)%list_elem_of_omap. unfold warn in Hw.
    case_bool_decide as Hs; [done|].
    apply fmap_Some in Hw as (keyword & Hk & ->). by exists r, keyword.
Qed.

(** The emphasised text is the original with the two markers put in. *)
Lemma highlight_inserts (original lowered keyword : pystr) :
  contains keyword lowered = true →
  ∃ before inside after,
    original = before ++ inside ++ after ∧
    highlight original lowered keyword
    = before ++ u "<b>" ++ inside ++ u "</b>" ++ after.
Proof.
  intros [i Hi]%contains_index. unfold highlight. rewrite Hi.
  exists (take i original), (slice i (i + length keyword) original),
    (drop (i + length keyword) original).
  split; [|done]. unfold slice.
  replace (i + length keyword - i)%nat with (length keyword) by lia.
  rewrite <- (take_drop i original) at 1. f_equal.
  rewrite <- (take_drop (length keyword) (drop i original)) at 1. f_equal.
  by rewrite drop_drop.
Qed.

(** X3. Every warning is about a record of the list, and its [info] is the
    interaction text of that record with one opening and one closing marker
    put in: nothing of the text is lost or changed, wherever the markers
    land. This holds for every order of the keywords and every input. *)
Theorem warning_info_keeps_the_text (order : list pystr) (records : list drug_info)
    (my_drugs : list drug_item) (w : warning) :
  w ∈ check_contraindications order records my_drugs →
  ∃ r before inside after,
    r ∈ records ∧
    searched_drug w = item_name r ∧
    interaction r = before ++ inside ++ after ∧
    info w = before ++ u "<b>" ++ inside ++ u "</b>" ++ after ∧
    length (info w) = (length (interaction r) + 7)%nat.
Proof.
  intros (r & keyword & Hr & _ & Hk & ->)%elem_of_check_contraindications.
  apply first_keyword_Some in Hk as [_ Hc].
  destruct (highlight_inserts (interaction r) (contra_info_lower r) keyword Hc)
    as (before & inside & after & Htext & Hinfo).
  exists r, before, inside, after. simpl.
  unfold contra_info_lower in Hinfo. rewrite Hinfo.
  split_and!; try done.
  rewrite Htext, !length_app. simpl. lia.
Qed.

(** X4. When the interaction texts of the list are written in the plain
    alphabet, do not start with whitespace and do not hold the letter
    U+0130, every warning marks the first place where its keyword occurs in
    the text up to case, and what stands between the markers is the text as
    it was written there. *)
Theorem warning_marks_first_occurrence (order : list pystr) (records : list drug_info)
    (my_drugs : list drug_item) (w : warning) :
  Forall (fun r => plain_text (interaction r) = true ∧
                   lstrip (interaction r) = interaction r ∧
                   304 ∉ interaction r) records →
  w ∈ check_contraindications order records my_drugs →
  ∃ r keyword found i,
    r ∈ records ∧ keyword ∈ order ∧
    searched_drug w = item_name r ∧
    length found = length keyword ∧
    lower found = keyword ∧
    interaction r = take i (interaction r) ++ found
                      ++ drop (i + length keyword) (interaction r) ∧
    (∀ j, (j < i)%nat →
       startswith keyword (drop j (strip (lower (interaction r)))) = false) ∧
    info w = take i (interaction r) ++ u "<b>" ++ found ++ u "</b>"
               ++ drop (i + length keyword) (interaction r).
Proof.
  intros Hall (r & keyword & Hr & _ & Hk & ->)%elem_of_check_contraindications.
  rewrite Forall_forall in Hall. destruct (Hall r Hr) as (Hplain & Hleft & Hno).
  apply first_keyword_Some in Hk as [Hin Hc].
  apply contains_index in Hc as [i Hi].
  unfold contra_info_lower in Hi. simpl. rewrite lower_table in * by done.
  destruct (highlight_wraps_first_occurrence _ _ _ Hleft Hno Hi)
    as (found & Hlen & Hlower & Htext & Hfirst & Hinfo).
  exists r, keyword, found, i. split_and!; try done.
  - rewrite lower_table; [done|].
    rewrite Htext, !plain_text_app in Hplain.
    by apply andb_true_iff in Hplain as [_ [? _]%andb_true_iff].
  - by rewrite lower_table.
Qed.

End MatcherProperties.

Section MatcherPropertiesWitnesses.
#[local] Existing Instance plain_python.

(** X1 at the two orders of the keywords of Tylenol. *)
Lemma flagged_records_independent_of_order_witness :
  iterates (my_drug_keywords [tylenol_en]) [u "tylenol"; u "acetaminophen"] ∧
  iterates (my_drug_keywords [tylenol_en]) [u "acetaminophen"; u "tylenol"] ∧
  flagged (check_contraindications [u "tylenol"; u "acetaminophen"]
             [record_of (u "A") (u "Tylenol holds acetaminophen"); record_of (u "B") NO_INFO]
             [tylenol_en])
  = flagged (check_contraindications [u "acetaminophen"; u "tylenol"]
               [record_of (u "A") (u "Tylenol holds acetaminophen"); record_of (u "B") NO_INFO]
               [tylenol_en])
  ∧ length (check_contraindications [u "tylenol"; u "acetaminophen"]
              [record_of (u "A") (u "Tylenol holds acetaminophen"); record_of (u "B") NO_INFO]
              [tylenol_en])
    = length (check_contraindications [u "acetaminophen"; u "tylenol"]
                [record_of (u "A") (u "Tylenol holds acetaminophen"); record_of (u "B") NO_INFO]
                [tylenol_en]).
Proof.
  assert (iterates (my_drug_keywords [tylenol_en]) [u "tylenol"; u "acetaminophen"]) as H1.
  { vm_compute. apply perm_swap || reflexivity. }
  assert (iterates (my_drug_keywords [tylenol_en]) [u "acetaminophen"; u "tylenol"]) as H2.
  { vm_compute. apply perm_swap || reflexivity. }
  split; [exact H1|]. split; [exact H2|].
  exact (flagged_records_independent_of_order _ _ _ _ H1 H2).
Defined.

(** X2 at a list with Aspirin, to which Tylenol is added. *)
Lemma more_medications_keep_warnings_witness :
  iterates (my_drug_keywords [aspirin_en]) [u "aspirin"] ∧
  iterates (my_drug_keywords ([aspirin_en] ++ [tylenol_en]))
    (elements (my_drug_keywords ([aspirin_en] ++ [tylenol_en]))) ∧
  flagged (check_contraindications [u "aspirin"]
             [record_of (u "A") (u "Avoid with Aspirin"); record_of (u "B") (u "No Tylenol")]
             [aspirin_en])
    `sublist_of`
  flagged (check_contraindications
             (elements (my_drug_keywords ([aspirin_en] ++ [tylenol_en])))
             [record_of (u "A") (u "Avoid with Aspirin"); record_of (u "B") (u "No Tylenol")]
             ([aspirin_en] ++ [tylenol_en])).
Proof.
  assert (iterates (my_drug_keywords [aspirin_en]) [u "aspirin"]) as H1.
  { vm_compute. reflexivity. }
  assert (iterates (my_drug_keywords ([aspirin_en] ++ [tylenol_en]))
            (elements (my_drug_keywords ([aspirin_en] ++ [tylenol_en])))) as H2.
  { unfold iterates. reflexivity. }
  split; [exact H1|]. split; [exact H2|].
  exact (more_medications_keep_warnings _ _ _ _ _ H1 H2).
Defined.

(** X3 at the record of the example "Avoid with Aspirin". *)
Lemma warning_info_keeps_the_text_witness :
  make_warning (record_of (u "X") (u "Avoid with Aspirin")) (u "aspirin")
    ∈ check_contraindications [u "aspirin"]
        [record_of (u "X") (u "Avoid with Aspirin")] [aspirin_en] ∧
  ∃ r before inside after,
    r ∈ [record_of (u "X") (u "Avoid with Aspirin")] ∧
    searched_drug (make_warning (record_of (u "X") (u "Avoid with Aspirin")) (u "aspirin"))
    = item_name r ∧
    interaction r = before ++ inside ++ after ∧
    info (make_warning (record_of (u "X") (u "Avoid with Aspirin")) (u "aspirin"))
    = before ++ u "<b>" ++ inside ++ u "</b>" ++ after ∧
    length (info (make_warning (record_of (u "X") (u "Avoid with Aspirin")) (u "aspirin")))
    = (length (interaction r) + 7)%nat.
Proof.
  assert (make_warning (record_of (u "X") (u "Avoid with Aspirin")) (u "aspirin")
            ∈ check_contraindications [u "aspirin"]
                [record_of (u "X") (u "Avoid with Aspirin")] [aspirin_en]) as Hin.
  { vm_compute. apply list_elem_of_here. }
  split; [exact Hin|].
  exact (warning_info_keeps_the_text _ _ _ _ Hin).
Defined.

(** X4 at the record of the example "Avoid with Aspirin". *)
Lemma warning_marks_first_occurrence_witness :
  Forall (fun r => plain_text (interaction r) = true ∧
                   lstrip (interaction r) = interaction r ∧
                   304 ∉ interaction r)
    [record_of (u "X") (u "Avoid with Aspirin")] ∧
  make_warning (record_of (u "X") (u "Avoid with Aspirin")) (u "aspirin")
    ∈ check_contraindications [u "aspirin"]
        [record_of (u "X") (u "Avoid with Aspirin")] [aspirin_en] ∧
  ∃ r keyword found i,
    r ∈ [record_of (u "X") (u "Avoid with Aspirin")] ∧ keyword ∈ [u "aspirin"] ∧
    searched_drug (make_warning (record_of (u "X") (u "Avoid with Aspirin")) (u "aspirin"))
    = item_name r ∧
    length found = length keyword ∧
    lower found = keyword ∧
    interaction r = take i (interaction r) ++ found
                      ++ drop (i + length keyword) (interaction r) ∧
    (∀ j, (j < i)%nat →
       startswith keyword (drop j (strip (lower (interaction r)))) = false) ∧
    info (make_warning (record_of (u "X") (u "Avoid with Aspirin")) (u "aspirin"))
    = take i (interaction r) ++ u "<b>" ++ found ++ u "</b>"
        ++ drop (i + length keyword) (interaction r).
Proof.
  assert (Forall (fun r => plain_text (interaction r) = true ∧
                           lstrip (interaction r) = interaction r ∧
                           304 ∉ interaction r)
            [record_of (u "X") (u "Avoid with Aspirin")]) as Hall.
  { apply Forall_singleton. split_and!; [by vm_compute | by vm_compute |].
    vm_compute. intros Hin.
    repeat (apply elem_of_cons in Hin as [Hin|Hin]; [done|]).
    by apply elem_of_nil in Hin. }
  assert (make_warning (record_of (u "X") (u "Avoid with Aspirin")) (u "aspirin")
            ∈ check_contraindications [u "aspirin"]
                [record_of (u "X") (u "Avoid with Aspirin")] [aspirin_en]) as Hin.
  { vm_compute. apply list_elem_of_here. }
  split_and!; [exact Hall | exact Hin |].
  exact (warning_marks_first_occurrence _ _ _ _ Hall Hin).
Defined.

End MatcherPropertiesWitnesses.

(** ** Theorems about the medication list *)

Section RoutesTheorems.
Context `{World}.

(** Removing entries keeps the names different. *)
Lemma unique_names_filter (P : drug_item → Prop) `{∀ d, Decision (P d)}
    (my_drugs : list drug_item) :
  unique_names my_drugs → unique_names (filter P my_drugs).
Proof.
  unfold unique_names. induction my_drugs as [|d l IH]; [done|].
  rewrite fmap_cons, NoDup_cons. intros [Hd Hl]. rewrite filter_cons.
  destruct (decide (P d)); [|by apply IH].
  rewrite fmap_cons, NoDup_cons. split; [|by apply IH].
  intros Hin. apply Hd. apply list_elem_of_fmap in Hin as (d' & Heq & Hd').
  apply list_elem_of_filter in Hd' as [_ Hd']. rewrite Heq.
  by apply (list_elem_of_fmap_2 (fun d => lower (name d))).
Qed.

(** The list after [remove_drug]. *)
Lemma remove_drug_list (drug_name : pystr) (s : session) :
  my_drugs_of (remove_drug drug_name s)
  = filter (fun d => lower (name d) ≠ lower (unquote drug_name)) (my_drugs_of s).
Proof.
  unfold remove_drug, my_drugs_of.
  destruct (my_drugs_entry s) as [l|] eqn:Hentry; simpl; [done|].
  by rewrite Hentry.
Qed.

(** What [add_drug] makes of the list, case by case. *)
Lemma add_drug_list (raw_drug_input : option pystr) (s : session) :
  my_drugs_of (add_drug raw_drug_input s)
  = match raw_drug_input with
    | None => my_drugs_of s
    | Some raw =>
        if bool_decide (strip raw ≠ [] ∧
                        lower (capitalize (strip raw))
                          ∉ ((fun d => lower (name d)) <$> my_drugs_of s))
        then my_drugs_of s ++
             [ {| name := capitalize (strip raw);
                  ingredient := default UNKNOWN_INGREDIENT
                                  (DRUG_INGREDIENT_MAP !! capitalize (strip raw)) |} ]
        else my_drugs_of s
    end.
Proof.
  destruct raw_drug_input as [[|c raw]|]; unfold add_drug; try done.
  destruct (strip (c :: raw)) as [|x t] eqn:Hstrip.
  - rewrite bool_decide_eq_false_2; [done | by intros [? _]].
  - case_bool_decide as Hnew.
    + by rewrite bool_decide_eq_true_2.
    + rewrite bool_decide_eq_false_2; [done | by intros [_ ?]].
Qed.

(** C9. After [remove_drug] the list holds the entries it held before whose
    lower-cased name differs from the lower case of the requested name, as
    the handler decodes it, unchanged and in their order: no entry whose
    name equals the requested name up to case is left. *)
Theorem remove_drug_filters_by_name (drug_name : pystr) (s : session) :
  my_drugs_of (remove_drug drug_name s)
  = filter (fun d => lower (name d) ≠ lower (unquote drug_name)) (my_drugs_of s)
  ∧ (∀ d, d ∈ my_drugs_of (remove_drug drug_name s) ↔
          d ∈ my_drugs_of s ∧ lower (name d) ≠ lower (unquote drug_name))
  ∧ my_drugs_of (remove_drug drug_name s) `sublist_of` my_drugs_of s.
Proof.
  rewrite remove_drug_list. split_and!; [done | |apply sublist_filter].
  intros d. rewrite list_elem_of_filter. tauto.
Qed.

(** C8, as the program has it. The three operations keep the names of the
    list different up to case. [add_drug] leaves the list as it is when the
    input is missing, when the stripped input is empty, or when the list
    already holds the capitalised stripped input up to case; otherwise it
    appends one entry, named by the capitalised stripped input, with the
    ingredient the map gives for that name or the sentinel of an unknown
    ingredient. *)
Theorem add_drug_keeps_names_unique (raw_drug_input : pystr) (drug_name : pystr)
    (s : session) :
  unique_names (my_drugs_of s) →
  (unique_names (my_drugs_of (add_drug (Some raw_drug_input) s)) ∧
   unique_names (my_drugs_of (add_drug None s)) ∧
   unique_names (my_drugs_of (remove_drug drug_name s)) ∧
   unique_names (my_drugs_of (clear_drugs s))) ∧
  (lower (capitalize (strip raw_drug_input))
     ∈ (fun d => lower (name d)) <$> my_drugs_of s →
   my_drugs_of (add_drug (Some raw_drug_input) s) = my_drugs_of s) ∧
  (strip raw_drug_input = [] →
   my_drugs_of (add_drug (Some raw_drug_input) s) = my_drugs_of s) ∧
  my_drugs_of (add_drug None s) = my_drugs_of s ∧
  (strip raw_drug_input ≠ [] →
   lower (capitalize (strip raw_drug_input))
     ∉ (fun d => lower (name d)) <$> my_drugs_of s →
   my_drugs_of (add_drug (Some raw_drug_input) s)
   = my_drugs_of s ++
     [ {| name := capitalize (strip raw_drug_input);
          ingredient := default UNKNOWN_INGREDIENT
                          (DRUG_INGREDIENT_MAP !! capitalize (strip raw_drug_input)) |} ]).
Proof.
  intros Hunique. rewrite !add_drug_list. split_and!.
  - case_bool_decide as Hnew; [|done]. destruct Hnew as [_ Hnew].
    unfold unique_names. rewrite fmap_app. apply NoDup_app. split_and!.
    + done.
    + intros x Hx [->|Hin]%elem_of_cons; [done | by apply elem_of_nil in Hin].
    + apply NoDup_singleton.
  - done.
  - rewrite remove_drug_list. by apply unique_names_filter.
  - apply NoDup_nil_2.
  - intros Hin. rewrite bool_decide_eq_false_2; [done | by intros [_ ?]].
  - intros Hempty. rewrite bool_decide_eq_false_2; [done | by intros [? _]].
  - done.
  - intros Hne Hnew. by rewrite bool_decide_eq_true_2.
Qed.

End RoutesTheorems.

(** C8 at a list of one entry and a new name of the ingredient map. *)
Lemma add_drug_keeps_names_unique_witness :
  @unique_names plain_python (my_drugs_of {| my_drugs_entry := Some [tylenol_ko] |}) ∧
  my_drugs_of (@add_drug (offline None) (Some (u " 게보린 "))
                 {| my_drugs_entry := Some [tylenol_ko] |})
  = [tylenol_ko; {| name := u "게보린"; ingredient := u "이소프로필안티피린" |}].
Proof.
  assert (@unique_names plain_python (my_drugs_of {| my_drugs_entry := Some [tylenol_ko] |}))
    as Hunique.
  { apply NoDup_singleton. }
  split; [exact Hunique|].
  destruct (@add_drug_keeps_names_unique (offline None) (u " 게보린 ") [] _ Hunique)
    as (_ & _ & _ & _ & Happend).
  rewrite Happend.
  - by vm_compute.
  - by vm_compute.
  - vm_compute. intros Hin. apply elem_of_cons in Hin as [Hin|Hin]; [done|].
    by apply elem_of_nil in Hin.
Defined.

(** C8, as the specification words it: an input that is empty once it is
    stripped names no entry of the list, and yet nothing is appended. *)
Lemma blank_input_appends_nothing :
  (@lower plain_python (@capitalize plain_python (strip (u "  ")))
     ∉ ((fun d => @lower plain_python (name d)) <$> [tylenol_ko])) ∧
  (my_drugs_of (@add_drug (offline None) (Some (u "  "))
                  {| my_drugs_entry := Some [tylenol_ko] |})
   = [tylenol_ko]) ∧
  (my_drugs_of (@add_drug (offline None) (Some [])
                  {| my_drugs_entry := Some [tylenol_ko] |})
   = [tylenol_ko]).
Proof.
  split_and!; [|by vm_compute..].
  vm_compute. intros Hin. apply elem_of_cons in Hin as [Hin|Hin]; [done|].
  by apply elem_of_nil in Hin.
Qed.

(** ** Further properties of the routes *)

Section RoutesProperties.
Context `{World}.

(** Whatever the order of the keywords, the warnings are about records of
    the list, in the order of the list, each at most once. *)
Lemma flagged_sublist (order : list pystr) (records : list drug_info)
    (my_drugs : list drug_item) :
  flagged (check_contraindications order records my_drugs) `sublist_of` names records.
Proof.
  unfold check_contraindications. destruct my_drugs as [|d my_drugs].
  - apply sublist_nil_l.
  - rewrite check_contraindications_run_cons. simpl. unfold flagged, names.
    induction records as [|r records IH]; [done|]. simpl.
    destruct (warn order r) as [w|] eqn:Hw; simpl.
    + unfold warn in Hw. case_bool_decide; [done|].
      apply fmap_Some in Hw as (keyword & _ & ->). simpl.
      apply sublist_skip. exact IH.
    + apply sublist_cons. exact IH.
Qed.

Lemma filter_all {A : Type} (P : A → Prop) `{∀ x, Decision (P x)} (l : list A) :
  (∀ x, x ∈ l → P x) → filter P l = l.
Proof.
  induction l as [|x l IH]; [done|]. intros Hall.
  rewrite filter_cons, decide_True by (apply Hall; by left).
  f_equal. apply IH. intros y Hy. apply Hall. by right.
Qed.

(** X8. The page handler, up to the call of the template, keeps the log and
    ends in one of two ways: the lookup has raised [UnicodeEncodeError], or
    records and warnings are handed to the template. Without a search term
    no request is sent and neither records nor warnings are shown. The
    warnings shown are about records shown, in their order and at most one
    for each; there is none when nothing was found or when the medication
    list is empty. *)
Theorem index_shows_warnings_of_its_records (order : list pystr)
    (search_term : option pystr) (s : session) (log : list params) :
  ∃ r sent,
    index order search_term s log = (r, log ++ sent) ∧
    (r = Exc UnicodeEncodeError ∨
     ∃ records warnings,
       r = Ret (records, warnings) ∧
       flagged warnings `sublist_of` names (default [] records) ∧
       (length warnings ≤ length (default [] records))%nat ∧
       (records = None → warnings = []) ∧
       (my_drugs_of s = [] → warnings = [])) ∧
    (search_term = None ∨ search_term = Some [] →
     sent = [] ∧ r = Ret (None, [])).
Proof.
  unfold index. destruct search_term as [[|c term]|].
  - exists (Ret (None, [])), []. rewrite app_nil_r.
    split_and!; [done | right; by exists None, [] | done].
  - unfold mbind, io_bind.
    destruct (search_drug_info_result (c :: term) log)
      as (r & sent & Hrun & Hr).
    rewrite Hrun. exists
      (match r with
       | Ret (Some (i :: l)) =>
           Ret (Some (i :: l), check_contraindications order (i :: l) (my_drugs_of s))
       | Ret drug_info_list => Ret (drug_info_list, [])
       | Exc e => Exc e
       end), sent.
    destruct Hr as [-> | [(x & l & ->) | ->]].
    + split_and!; [done | right; by exists None, [] | by intros [?|?]].
    + split_and!; [done | right | by intros [?|?]].
      exists (Some (x :: l)), (check_contraindications order (x :: l) (my_drugs_of s)).
      pose proof (flagged_sublist order (x :: l) (my_drugs_of s)) as Hsub.
      split_and!; try done.
      * apply sublist_length in Hsub. unfold flagged, names in Hsub.
        by rewrite !length_fmap in Hsub.
      * intros ->. done.
    + split_and!; [done | by left | by intros [?|?]].
  - exists (Ret (None, [])), []. rewrite app_nil_r.
    split_and!; [done | right; by exists None, [] | done].
Qed.

(** X9. Adding a medication that the list does not hold and then removing
    it by its name, in any casing, gives back the list as it was. The name
    is the one [add_drug] stores, the capitalised stripped input, and the
    names are compared in lower case, as the two handlers compare them. *)
Theorem add_then_remove_restores (raw_drug_input drug_name : pystr) (s : session) :
  strip raw_drug_input ≠ [] →
  lower (capitalize (strip raw_drug_input))
    ∉ ((fun d => lower (name d)) <$> my_drugs_of s) →
  lower (unquote drug_name) = lower (capitalize (strip raw_drug_input)) →
  my_drugs_of (remove_drug drug_name (add_drug (Some raw_drug_input) s))
  = my_drugs_of s.
Proof.
  intros Hne Hnew Hsame.
  rewrite remove_drug_list, add_drug_list.
  rewrite bool_decide_eq_true_2 by done.
  rewrite filter_app, filter_cons, filter_nil. simpl.
  rewrite decide_False by (intros Hd; by apply Hd).
  rewrite app_nil_r. apply filter_all. intros d Hd.
  rewrite Hsame. intros Heq. apply Hnew. rewrite <- Heq.
  by apply (list_elem_of_fmap_2 (fun d => lower (name d))).
Qed.

(** X10. Adding the same input a second time changes nothing: [add_drug] is
    idempotent, for every input and every session. *)
Theorem add_drug_twice_is_once (raw_drug_input : option pystr) (s : session) :
  my_drugs_of (add_drug raw_drug_input (add_drug raw_drug_input s))
  = my_drugs_of (add_drug raw_drug_input s).
Proof.
  rewrite (add_drug_list raw_drug_input (add_drug raw_drug_input s)).
  destruct raw_drug_input as [raw|]; [|done].
  rewrite add_drug_list.
  destruct (decide (strip raw ≠ [] ∧
                    lower (capitalize (strip raw))
                      ∉ ((fun d => lower (name d)) <$> my_drugs_of s))) as [Hfirst|Hfirst].
  - rewrite (bool_decide_eq_true_2 _ Hfirst).
    rewrite bool_decide_eq_false_2; [done|].
    intros [_ Hnot]. apply Hnot. rewrite fmap_app. apply elem_of_app. right.
    simpl. apply list_elem_of_here.
  - rewrite !(bool_decide_eq_false_2 _ Hfirst). done.
Qed.

(** X11. Removing is idempotent and leaves a list alone that has no entry of
    that name up to case; two removals can be done in either order. *)
Theorem remove_drug_composes (drug_name other : pystr) (s : session) :
  my_drugs_of (remove_drug drug_name (remove_drug drug_name s))
  = my_drugs_of (remove_drug drug_name s)
  ∧ (lower (unquote drug_name) ∉ ((fun d => lower (name d)) <$> my_drugs_of s) →
     my_drugs_of (remove_drug drug_name s) = my_drugs_of s)
  ∧ my_drugs_of (remove_drug drug_name (remove_drug other s))
    = my_drugs_of (remove_drug other (remove_drug drug_name s)).
Proof.
  rewrite !remove_drug_list. split_and!.
  - rewrite list_filter_filter. apply list_filter_iff. tauto.
  - intros Hnot. apply filter_all. intros d Hd Heq. apply Hnot.
    rewrite <- Heq. by apply (list_elem_of_fmap_2 (fun d => lower (name d))).
  - rewrite !list_filter_filter. apply list_filter_iff. tauto.
Qed.

(** The values of the ingredient map are not empty and are not the
    sentinel. *)
Lemma ingredient_map_values :
  map_Forall (fun _ value => value ≠ [] ∧ value ≠ UNKNOWN_INGREDIENT) DRUG_INGREDIENT_MAP.
Proof. apply (bool_decide_unpack _). by vm_compute. Qed.

Lemma built_by_add_ingredient (d : drug_item) :
  built_by_add d → ingredient d ≠ [].
Proof.
  intros [_ ->]. destruct (DRUG_INGREDIENT_MAP !! name d) as [value|] eqn:Hvalue; simpl.
  - by destruct (ingredient_map_values _ _ Hvalue).
  - done.
Qed.

(** X12. In every session the routes lead to, the names of the list differ
    up to case, every entry has a name that is not empty and the ingredient
    the map gives for its name (or the sentinel), and so the empty string is
    never a keyword of the matcher: the routes cannot build a list on which
    every record is flagged. *)
Theorem routes_keep_the_list_well_formed (s : session) :
  reachable s →
  unique_names (my_drugs_of s) ∧
  Forall built_by_add (my_drugs_of s) ∧
  [] ∉ my_drug_keywords (my_drugs_of s).
Proof.
  intros Hreach.
  assert (unique_names (my_drugs_of s) ∧ Forall built_by_add (my_drugs_of s))
    as [Hunique Hbuilt].
  { induction Hreach as [|raw s _ [IHu IHb]|drug_name s _ [IHu IHb]|s _ _].
    - split; [apply NoDup_nil_2 | constructor].
    - rewrite add_drug_list. destruct raw as [raw|]; [|done].
      case_bool_decide as Hnew; [|done]. destruct Hnew as [Hne Hnew]. split.
      + unfold unique_names. rewrite fmap_app. apply NoDup_app. split_and!.
        * done.
        * intros x Hx [->|Hin]%elem_of_cons; [done | by apply elem_of_nil in Hin].
        * apply NoDup_singleton.
      + apply Forall_app. split; [done|]. apply Forall_singleton.
        split; [by apply capitalize_not_nil | done].
    - rewrite remove_drug_list. split.
      + by apply unique_names_filter.
      + apply Forall_forall. intros d [_ Hd]%list_elem_of_filter.
        rewrite Forall_forall in IHb. by apply IHb.
    - split; [apply NoDup_nil_2 | constructor]. }
  split_and!; [done | done |].
  intros (d & Hd & Hc)%my_drug_keywords_spec.
  rewrite Forall_forall in Hbuilt. specialize (Hbuilt d Hd).
  destruct Hc as [[Hname Hempty] | [_ Hempty]].
  - by apply Hname.
  - symmetry in Hempty. apply lower_nil in Hempty.
    by apply (built_by_add_ingredient d).
Qed.

(** X13. After a medication of the ingredient map has been added to a list
    that did not hold it (up to case, as [add_drug] compares the names), the
    lower case of its ingredient is a keyword, and every record whose text
    is not the sentinel and names that ingredient is among the flagged ones,
    whatever the order of the keywords. *)
Theorem added_drug_flags_its_ingredient (raw_drug_input value : pystr) (s : session)
    (order : list pystr) (records : list drug_info) (r : drug_info) :
  DRUG_INGREDIENT_MAP !! capitalize (strip raw_drug_input) = Some value →
  lower (capitalize (strip raw_drug_input))
    ∉ ((fun d => lower (name d)) <$> my_drugs_of s) →
  iterates (my_drug_keywords (my_drugs_of (add_drug (Some raw_drug_input) s))) order →
  r ∈ records →
  contra_info_lower r ≠ NO_INFO →
  contains (lower value) (contra_info_lower r) = true →
  lower value ∈ my_drug_keywords (my_drugs_of (add_drug (Some raw_drug_input) s)) ∧
  item_name r
    ∈ flagged (check_contraindications order records
                 (my_drugs_of (add_drug (Some raw_drug_input) s))).
Proof.
  intros Hvalue Hnew Horder Hr Hs Hc.
  assert (strip raw_drug_input ≠ []) as Hne.
  { intros Hempty. rewrite Hempty in Hvalue.
    rewrite capitalize_table in Hvalue by reflexivity. by vm_compute in Hvalue. }
  assert (value ≠ UNKNOWN_INGREDIENT ∧ plain_text value = true) as [Hknown Hplain].
  { split.
    - by destruct (ingredient_map_values _ _ Hvalue).
    - exact (ingredient_values_plain _ _ Hvalue). }
  assert (lower value ∈ my_drug_keywords (my_drugs_of (add_drug (Some raw_drug_input) s)))
    as Hin.
  { rewrite add_drug_list.
    rewrite bool_decide_eq_true_2 by done.
    apply my_drug_keywords_spec. eexists. split.
    - apply elem_of_app. right. apply list_elem_of_here.
    - right. simpl. rewrite Hvalue. simpl. split; [|done].
      by rewrite lower_unknown_iff. }
  split; [done|].
  rewrite flagged_filter by done. unfold names.
  apply list_elem_of_fmap_2. apply list_elem_of_filter. split; [|done].
  split; [done|]. by exists (lower value).
Qed.

End RoutesProperties.

(** X9 at a list with 타이레놀, to which Aspirin is added and from which
    "ASPIRIN" is removed. *)
Lemma add_then_remove_restores_witness :
  strip (u " aspirin ") ≠ [] ∧
  (@lower plain_python (@capitalize plain_python (strip (u " aspirin ")))
     ∉ ((fun d => @lower plain_python (name d))
          <$> my_drugs_of {| my_drugs_entry := Some [tylenol_ko] |})) ∧
  @lower plain_python (@unquote (offline None) (u "ASPIRIN"))
  = @lower plain_python (@capitalize plain_python (strip (u " aspirin "))) ∧
  my_drugs_of (@remove_drug (offline None) (u "ASPIRIN")
                 (@add_drug (offline None) (Some (u " aspirin "))
                    {| my_drugs_entry := Some [tylenol_ko] |}))
  = my_drugs_of {| my_drugs_entry := Some [tylenol_ko] |}.
Proof.
  assert (strip (u " aspirin ") ≠ []) as Hne by (by vm_compute).
  assert (@lower plain_python (@capitalize plain_python (strip (u " aspirin ")))
            ∉ ((fun d => @lower plain_python (name d))
                 <$> my_drugs_of {| my_drugs_entry := Some [tylenol_ko] |}))
    as Hnew.
  { vm_compute. intros Hin. apply elem_of_cons in Hin as [Hin|Hin]; [done|].
    by apply elem_of_nil in Hin. }
  assert (@lower plain_python (@unquote (offline None) (u "ASPIRIN"))
          = @lower plain_python (@capitalize plain_python (strip (u " aspirin "))))
    as Hsame by (by vm_compute).
  split; [exact Hne|]. split; [exact Hnew|]. split; [exact Hsame|].
  exact (@add_then_remove_restores (offline None) _ _ _ Hne Hnew Hsame).
Defined.

(** X12 at the session after 타이레놀 and Aspirin have been added and
    타이레놀 has been removed. *)
Lemma routes_keep_the_list_well_formed_witness :
  @reachable (offline None)
    (@remove_drug (offline None) (u "타이레놀")
       (@add_drug (offline None) (Some (u "aspirin"))
          (@add_drug (offline None) (Some (u "타이레놀")) {| my_drugs_entry := None |}))) ∧
  @unique_names plain_python
    (my_drugs_of
       (@remove_drug (offline None) (u "타이레놀")
          (@add_drug (offline None) (Some (u "aspirin"))
             (@add_drug (offline None) (Some (u "타이레놀"))
                {| my_drugs_entry := None |})))) ∧
  Forall built_by_add
    (my_drugs_of
       (@remove_drug (offline None) (u "타이레놀")
          (@add_drug (offline None) (Some (u "aspirin"))
             (@add_drug (offline None) (Some (u "타이레놀"))
                {| my_drugs_entry := None |})))) ∧
  [] ∉ @my_drug_keywords plain_python
         (my_drugs_of
            (@remove_drug (offline None) (u "타이레놀")
               (@add_drug (offline None) (Some (u "aspirin"))
                  (@add_drug (offline None) (Some (u "타이레놀"))
                     {| my_drugs_entry := None |})))).
Proof.
  assert (@reachable (offline None)
            (@remove_drug (offline None) (u "타이레놀")
               (@add_drug (offline None) (Some (u "aspirin"))
                  (@add_drug (offline None) (Some (u "타이레놀"))
                     {| my_drugs_entry := None |})))) as Hreach.
  { apply reach_remove, reach_add, reach_add, reach_start. }
  split; [exact Hreach|].
  exact (@routes_keep_the_list_well_formed (offline None) _ Hreach).
Defined.

(** X13 at 타이레놀, added to a session without a list. *)
Lemma added_drug_flags_its_ingredient_witness :
  DRUG_INGREDIENT_MAP !! @capitalize plain_python (strip (u " 타이레놀 "))
  = Some (u "아세트아미노펜") ∧
  (@lower plain_python (@capitalize plain_python (strip (u " 타이레놀 ")))
     ∉ ((fun d => @lower plain_python (name d))
          <$> my_drugs_of {| my_drugs_entry := None |})) ∧
  iterates
    (@my_drug_keywords plain_python
       (my_drugs_of (@add_drug (offline None) (Some (u " 타이레놀 "))
                       {| my_drugs_entry := None |})))
    [u "타이레놀"; u "아세트아미노펜"] ∧
  record_of (u "아스피린") (u "아세트아미노펜과 함께 복용하지 마십시오")
    ∈ [record_of (u "아스피린") (u "아세트아미노펜과 함께 복용하지 마십시오")] ∧
  @contra_info_lower plain_python
    (record_of (u "아스피린") (u "아세트아미노펜과 함께 복용하지 마십시오"))
    ≠ NO_INFO ∧
  contains (@lower plain_python (u "아세트아미노펜"))
    (@contra_info_lower plain_python
       (record_of (u "아스피린") (u "아세트아미노펜과 함께 복용하지 마십시오")))
  = true ∧
  @lower plain_python (u "아세트아미노펜")
    ∈ @my_drug_keywords plain_python
        (my_drugs_of (@add_drug (offline None) (Some (u " 타이레놀 "))
                        {| my_drugs_entry := None |})) ∧
  item_name (record_of (u "아스피린") (u "아세트아미노펜과 함께 복용하지 마십시오"))
    ∈ flagged
        (@check_contraindications plain_python [u "타이레놀"; u "아세트아미노펜"]
           [record_of (u "아스피린") (u "아세트아미노펜과 함께 복용하지 마십시오")]
           (my_drugs_of (@add_drug (offline None) (Some (u " 타이레놀 "))
                           {| my_drugs_entry := None |}))).
Proof.
  assert (DRUG_INGREDIENT_MAP !! @capitalize plain_python (strip (u " 타이레놀 "))
          = Some (u "아세트아미노펜")) as Hvalue by (by vm_compute).
  assert (@lower plain_python (@capitalize plain_python (strip (u " 타이레놀 ")))
            ∉ ((fun d => @lower plain_python (name d))
                 <$> my_drugs_of {| my_drugs_entry := None |}))
    as Hnew.
  { vm_compute. intros Hin. by apply elem_of_nil in Hin. }
  assert (iterates
            (@my_drug_keywords plain_python
               (my_drugs_of (@add_drug (offline None) (Some (u " 타이레놀 "))
                               {| my_drugs_entry := None |})))
            [u "타이레놀"; u "아세트아미노펜"]) as Horder.
  { vm_compute. apply perm_swap || reflexivity. }
  assert (record_of (u "아스피린") (u "아세트아미노펜과 함께 복용하지 마십시오")
            ∈ [record_of (u "아스피린") (u "아세트아미노펜과 함께 복용하지 마십시오")])
    as Hr by apply list_elem_of_here.
  assert (@contra_info_lower plain_python
            (record_of (u "아스피린") (u "아세트아미노펜과 함께 복용하지 마십시오"))
          ≠ NO_INFO) as Hs by (by vm_compute).
  assert (contains (@lower plain_python (u "아세트아미노펜"))
            (@contra_info_lower plain_python
               (record_of (u "아스피린") (u "아세트아미노펜과 함께 복용하지 마십시오")))
          = true) as Hc by (by vm_compute).
  split; [exact Hvalue|]. split; [exact Hnew|]. split; [exact Horder|].
  split; [exact Hr|]. split; [exact Hs|]. split; [exact Hc|].
  exact (@added_drug_flags_its_ingredient (offline None) _ _ _ _ _ _
           Hvalue Hnew Horder Hr Hs Hc).
Defined.
